(** * The MCP protocol engine of proyecto-mcp-bolsa, embedded in Rocq

    Sources embedded here:
    - [pkg/models/mcp.go]       the JSON-RPC envelope and the MCP payloads;
    - package [mcp], [Server]   the tool registry and the dispatch loop;
    - [internal/mcp/client.go]  the process transport and the client calls;
    - [cmd/chatbot/main.go]     [connectToMCPServer], the caller of the client.

    Go's [encoding/json], [os/exec] and [io] are libraries the program
    only calls.  Their observable behaviour is kept abstract: a decoder
    is the sequence of outcomes its [Decode] calls will have, an encoder
    records what was written and may fail, unmarshalling of dynamic
    payloads is an interface ([Json]), and a child process is described
    by the times at which it exits.  Loggers write diagnostics to stderr
    only and are left out. *)

From stdpp Require Import gmap strings list fin_maps.
From Stdlib Require Import ZArith Lia Sorted.

Local Open Scope Z_scope.
Local Open Scope string_scope.
Local Open Scope list_scope.
Set Warnings "-register-all".

(** ** Go values *)

(** A Go [error]: [None] is [nil], [Some msg] an error whose [Error()]
    text is [msg]. *)
Definition error : Type := option string.

(** A JSON value: what stands on the wire, and what [interface{}]
    holds after [encoding/json] decoded into it ([nil], [bool], a
    number, [string], [[]interface{}], [map[string]interface{}]).  Only
    whole numbers are written here.  On the wire a number is a numeral
    of any size; decoded, it is a [float64], and [decodeValue] below is
    the passage from the one to the other.  The program itself carries
    numbers through untouched. *)
Inductive value : Type :=
| VNil
| VBool (b : bool)
| VNum (n : Z)
| VStr (s : string)
| VArr (items : list value)
| VObj (fields : list (string * value)).

(** ** Numbers through encoding/json *)



(** ** pkg/models/mcp.go *)

Module models.

Record JSONRPCError := {
  Code : Z;
  Message : string;
  Data : value
}.

Record ClientCapabilities := {
  cc_Experimental : option (gmap string value);
  cc_Sampling : option (gmap string value)
}.

Record LoggingCapability := {}.
Record PromptsCapability := { pc_ListChanged : bool }.
Record ResourcesCapability := { rc_Subscribe : bool; rc_ListChanged : bool }.
Record ToolsCapability := { tc_ListChanged : bool }.

Record ServerCapabilities := {
  Logging : option LoggingCapability;
  Prompts : option PromptsCapability;
  Resources : option ResourcesCapability;
  Tools : option ToolsCapability;
  Experimental : option (gmap string value)
}.

Record ClientInfo := { ci_Name : string; ci_Version : string }.
Record ServerInfo := { si_Name : string; si_Version : string }.

Record InitializeRequest := {
  ireq_ProtocolVersion : string;
  ireq_Capabilities : ClientCapabilities;
  ireq_ClientInfo : ClientInfo
}.

Record InitializeResponse := {
  ires_ProtocolVersion : string;
  ires_Capabilities : ServerCapabilities;
  ires_ServerInfo : ServerInfo
}.

(** [InputSchema] is a [json.RawMessage]; it is kept as the JSON value
    the raw text denotes, [VNil] for the nil message. *)
Record Tool := {
  Name : string;
  Description : string;
  InputSchema : value
}.

Record ListToolsResponse := { ltr_Tools : list Tool }.

Record CallToolRequest := {
  ctr_Name : string;
  ctr_Arguments : gmap string value
}.

Record Content := { Type_ : string; Text : string }.

Record CallToolResponse := {
  Content_ : list Content;
  IsError : bool
}.

(** [JSONRPCRequest.Params] is an [interface{}]: the client stores a
    payload struct in it, the server finds whatever the decoder
    produced. *)
Inductive Params : Type :=
| PNil
| PInitialize (p : InitializeRequest)
| PCallTool (p : CallToolRequest)
| PRaw (v : value).

(** [JSONRPCResponse.Result], likewise.  [RCallTool None] is the
    interface holding a nil [*CallToolResponse]. *)
Inductive Result : Type :=
| RNil
| RInitialize (r : InitializeResponse)
| RListTools (r : ListToolsResponse)
| RCallTool (r : option CallToolResponse)
| RRaw (v : value).

Record JSONRPCRequest := {
  req_JSONRPC : string;
  req_ID : value;
  req_Method : string;
  req_Params : Params
}.

Record JSONRPCResponse := {
  resp_JSONRPC : string;
  resp_ID : value;
  resp_Result : Result;
  resp_Error : option JSONRPCError
}.

End models.
Import models.

(** ** encoding/json, as the program sees it *)

(** A [json.Encoder] over a writer: what has been written so far, and the
    writer's behaviour, a fault for each call of [Encode] in turn. *)
Record Encoder (A : Type) := mkEncoder {
  written : list A;
  calls : nat;
  faults : nat -> error
}.
Arguments mkEncoder {A}.
Arguments written {A}.
Arguments calls {A}.
Arguments faults {A}.

Definition NewEncoder {A} (w : nat -> error) : Encoder A :=
  mkEncoder [] 0%nat w.

(** [encoder.Encode(v)]: one value appended to the output, or the
    writer's error and nothing written. *)
Definition Encode {A} (e : Encoder A) (v : A) : Encoder A * error :=
  match faults e (calls e) with
  | Some msg => (mkEncoder (written e) (S (calls e)) (faults e), Some msg)
  | None => (mkEncoder (written e ++ [v]) (S (calls e)) (faults e), None)
  end.

(** The writer never fails. *)
Definition reliable {A} (e : Encoder A) : Prop :=
  forall n, faults e n = None.

(** One call of [decoder.Decode]: a value, or a failure other than
    [io.EOF]. *)
Inductive DecodeResult (A : Type) : Type :=
| Decoded (a : A)
| DecodeFail (msg : string).
Arguments Decoded {A}.
Arguments DecodeFail {A}.

(** A [json.Decoder] over a reader: the outcomes of its successive
    [Decode] calls; when they are used up the stream has ended and
    [Decode] returns [io.EOF]. *)
Definition Decoder (A : Type) : Type := list (DecodeResult A).

(** [json.Marshal] followed by [json.Unmarshal] into a payload struct,
    as the handlers and the client do with dynamic payloads ([inl] is
    the error's text). *)
Class Json := {
  remarshalInitializeRequest : Params -> string + InitializeRequest;
  remarshalCallToolRequest : Params -> string + CallToolRequest;
  remarshalInitializeResponse : Result -> string + InitializeResponse;
  remarshalListToolsResponse : Result -> string + ListToolsResponse;
  remarshalCallToolResponse : Result -> string + CallToolResponse
}.

(** ** package mcp: the server *)

(** [ToolHandler.Handle]: Go returns the pair (result, err); the result
    pointer may be nil. *)
Definition ToolHandler : Type :=
  gmap string value -> option CallToolResponse * error.

Record Server := mkServer {
  s_name : string;
  s_version : string;
  s_capabilities : ServerCapabilities;
  s_tools : gmap string ToolHandler
}.

Definition NewServer (name version : string) : Server :=
  {| s_name := name;
     s_version := version;
     s_capabilities :=
       {| Logging := Some Build_LoggingCapability;
          Prompts := None;
          Resources := None;
          Tools := Some {| tc_ListChanged := false |};
          Experimental := None |};
     s_tools := ∅ |}.

(** [RegisterTool] stores the handler under the name; the description
    and the schema it is given are not stored anywhere. *)
Definition RegisterTool (s : Server) (name description : string)
    (inputSchema : value) (handler : ToolHandler) : Server :=
  {| s_name := s.(s_name);
     s_version := s.(s_version);
     s_capabilities := s.(s_capabilities);
     s_tools := <[name := handler]> s.(s_tools) |}.

Definition sendError (encoder : Encoder JSONRPCResponse) (id : value)
    (code : Z) (message data : string) : Encoder JSONRPCResponse * error :=
  let response :=
    {| resp_JSONRPC := "2.0";
       resp_ID := id;
       resp_Result := RNil;
       resp_Error := Some {| Code := code; Message := message; Data := VStr data |} |} in
  Encode encoder response.

(** The description table of [getToolDescription]; a Go map lookup
    yields the zero value, the empty string, for an absent key. *)
Definition descriptions : gmap string string :=
  <["analyze_portfolio" :=
      "Analyze a portfolio of stocks and provide investment recommendations"]>
  (<["get_stock_price" := "Get current stock price and basic information"]>
  (<["export_analysis" := "Export analysis results to CSV or JSON format"]> ∅)).

Definition getToolDescription (s : Server) (name : string) : string :=
  default "" (descriptions !! name).

(** The three schema literals of [handleListTools], as the JSON values
    their text denotes. *)
Definition schema_analyze_portfolio : value :=
  VObj [("type", VStr "object");
        ("properties", VObj
           [("symbols", VObj
               [("type", VStr "array");
                ("items", VObj [("type", VStr "string")]);
                ("description", VStr "Array of stock symbols to analyze")]);
            ("timeframe", VObj
               [("type", VStr "string");
                ("description", VStr "Timeframe for analysis (1D, 5D, 1M, 3M, 6M, 1Y)");
                ("default", VStr "1M")])]);
        ("required", VArr [VStr "symbols"])].

Definition schema_get_stock_price : value :=
  VObj [("type", VStr "object");
        ("properties", VObj
           [("symbol", VObj
               [("type", VStr "string");
                ("description", VStr "Stock symbol to get price for")])]);
        ("required", VArr [VStr "symbol"])].

Definition schema_export_analysis : value :=
  VObj [("type", VStr "object");
        ("properties", VObj
           [("format", VObj
               [("type", VStr "string");
                ("enum", VArr [VStr "csv"; VStr "json"]);
                ("description", VStr "Export format");
                ("default", VStr "json")]);
            ("filename", VObj
               [("type", VStr "string");
                ("description", VStr "Output filename")])]);
        ("required", VArr [VStr "filename"])].

(** The [switch name] of [handleListTools]: no case matches any other
    name and [inputSchema] stays nil. *)
Definition inputSchemaFor (name : string) : value :=
  if decide (name = "analyze_portfolio") then schema_analyze_portfolio
  else if decide (name = "get_stock_price") then schema_get_stock_price
  else if decide (name = "export_analysis") then schema_export_analysis
  else VNil.

(** The body of the [for name := range s.tools] loop. *)
Definition listedTool (s : Server) (name : string) : Tool :=
  {| Name := name;
     Description := getToolDescription s name;
     InputSchema := inputSchemaFor name |}.

Section WithJson.
Context `{Json}.

(** The zero values that [var initReq] and [var callReq] start from. *)
Definition zeroInitializeRequest : InitializeRequest :=
  {| ireq_ProtocolVersion := "";
     ireq_Capabilities := {| cc_Experimental := None; cc_Sampling := None |};
     ireq_ClientInfo := {| ci_Name := ""; ci_Version := "" |} |}.

Definition zeroCallToolRequest : CallToolRequest :=
  {| ctr_Name := ""; ctr_Arguments := ∅ |}.

(** [if request.Params != nil { Marshal; Unmarshal into initReq }]. *)
Definition initializeParams (request : JSONRPCRequest) : string + InitializeRequest :=
  match request.(req_Params) with
  | PNil => inr zeroInitializeRequest
  | params => remarshalInitializeRequest params
  end.

(** [if request.Params != nil { Marshal; Unmarshal into callReq }]. *)
Definition callToolParams (request : JSONRPCRequest) : string + CallToolRequest :=
  match request.(req_Params) with
  | PNil => inr zeroCallToolRequest
  | params => remarshalCallToolRequest params
  end.

Definition handleInitialize (s : Server) (encoder : Encoder JSONRPCResponse)
    (request : JSONRPCRequest) : Encoder JSONRPCResponse * error :=
  match initializeParams request with
  | inl msg => sendError encoder request.(req_ID) (-32602) "Invalid params" msg
  | inr initReq =>
      let response :=
        {| resp_JSONRPC := "2.0";
           resp_ID := request.(req_ID);
           resp_Result := RInitialize
             {| ires_ProtocolVersion := "2024-11-05";
                ires_Capabilities := s.(s_capabilities);
                ires_ServerInfo :=
                  {| si_Name := s.(s_name); si_Version := s.(s_version) |} |};
           resp_Error := None |} in
      Encode encoder response
  end.

(** Go ranges over the map in an unspecified order; the order of
    [map_to_list] stands for whichever order one run takes. *)
Definition handleListTools (s : Server) (encoder : Encoder JSONRPCResponse)
    (request : JSONRPCRequest) : Encoder JSONRPCResponse * error :=
  let tools := listedTool s <$> (map_to_list s.(s_tools)).*1 in
  let response :=
    {| resp_JSONRPC := "2.0";
       resp_ID := request.(req_ID);
       resp_Result := RListTools {| ltr_Tools := tools |};
       resp_Error := None |} in
  Encode encoder response.

Definition handleCallTool (s : Server) (encoder : Encoder JSONRPCResponse)
    (request : JSONRPCRequest) : Encoder JSONRPCResponse * error :=
  match callToolParams request with
  | inl msg => sendError encoder request.(req_ID) (-32602) "Invalid params" msg
  | inr callReq =>
      match s.(s_tools) !! callReq.(ctr_Name) with
      | None =>
          sendError encoder request.(req_ID) (-32601) "Tool not found"
            callReq.(ctr_Name)
      | Some handler =>
          match handler callReq.(ctr_Arguments) with
          | (_, Some msg) =>
              sendError encoder request.(req_ID) (-32603)
                "Tool execution error" msg
          | (result, None) =>
              let response :=
                {| resp_JSONRPC := "2.0";
                   resp_ID := request.(req_ID);
                   resp_Result := RCallTool result;
                   resp_Error := None |} in
              Encode encoder response
          end
      end
  end.

Definition handleInitialized (s : Server) (encoder : Encoder JSONRPCResponse)
    (request : JSONRPCRequest) : Encoder JSONRPCResponse * error :=
  (encoder, None).

(** The [switch request.Method] inside the loop of [HandleRequest]. *)
Definition route (s : Server) (encoder : Encoder JSONRPCResponse)
    (request : JSONRPCRequest) : Encoder JSONRPCResponse * error :=
  if decide (request.(req_Method) = "initialize") then
    handleInitialize s encoder request
  else if decide (request.(req_Method) = "tools/list") then
    handleListTools s encoder request
  else if decide (request.(req_Method) = "tools/call") then
    handleCallTool s encoder request
  else if decide (request.(req_Method) = "notifications/initialized") then
    handleInitialized s encoder request
  else
    sendError encoder request.(req_ID) (-32601) "Method not found"
      request.(req_Method).

(** [HandleRequest]: the loop ends at [io.EOF] with nil, at any other
    decode failure with whatever sending the parse error returned, and
    at the first handler error with that error. *)
Fixpoint HandleRequest (s : Server) (input : Decoder JSONRPCRequest)
    (encoder : Encoder JSONRPCResponse) : Encoder JSONRPCResponse * error :=
  match input with
  | [] => (encoder, None)
  | DecodeFail msg :: _ => sendError encoder VNil (-32700) "Parse error" msg
  | Decoded request :: rest =>
      match route s encoder request with
      | (encoder', Some err) => (encoder', Some err)
      | (encoder', None) => HandleRequest s rest encoder'
      end
  end.

End WithJson.

(** The error envelope that [sendError] builds. *)
Definition errorResponse (id : value) (code : Z) (message data : string)
    : JSONRPCResponse :=
  {| resp_JSONRPC := "2.0";
     resp_ID := id;
     resp_Result := RNil;
     resp_Error := Some {| Code := code; Message := message; Data := VStr data |} |}.

(** The requests one run of the loop gets to see: those decoded before
    the first decode failure or the end of the stream. *)
Fixpoint handled (input : Decoder JSONRPCRequest) : list JSONRPCRequest :=
  match input with
  | Decoded request :: rest => request :: handled rest
  | _ => []
  end.

(** How the stream ends for the loop: [None] at [io.EOF], the message of
    the first other decode failure otherwise. *)
Fixpoint streamFailure (input : Decoder JSONRPCRequest) : option string :=
  match input with
  | [] => None
  | DecodeFail msg :: _ => Some msg
  | Decoded _ :: rest => streamFailure rest
  end.

(** The methods the [switch] answers: every one but
    [notifications/initialized]. *)
Definition answered (request : JSONRPCRequest) : Prop :=
  request.(req_Method) ≠ "notifications/initialized".

#[global] Instance answered_dec request : Decision (answered request).
Proof. unfold answered. apply _. Defined.

(** ** os/exec and the operating system, as the client sees them *)

(** A spawned child, described by when it goes away:
    - [self_exit]: milliseconds after the spawn at which it exits of its
      own accord while its pipes are still open ([None]: it keeps
      running);
    - [eof_exit]: milliseconds after [Close] has closed its pipes at
      which it has exited ([Some 0] when it was gone already, [None]
      when closing the pipes never makes it exit);
    - [kill_exit]: milliseconds after the kill signal at which the
      kernel has reclaimed it ([None]: never). *)
Record Process := {
  Pid : Z;
  self_exit : option N;
  eof_exit : option N;
  kill_exit : option N
}.

Record ProcessState := {
  Exited : bool;
  status : string
}.

(** The fields of [exec.Cmd] the client touches.  [Process] is set by
    [Start]; [ProcessState] is set only by [Wait] (or [Run]), when the
    command completes. *)
Record Cmd := {
  Path : string;
  Args : list string;
  cmd_Process : option Process;
  cmd_ProcessState : option ProcessState
}.

(** [exec.Command(name, arg...)].  [Path] is kept as the name given,
    which is what [exec.Command] stores for a name that holds a path
    separator; for a bare name it stores what the search through PATH
    found.  Nothing here reads [Path]. *)
Definition Command (name : string) (arg : list string) : Cmd :=
  {| Path := name; Args := name :: arg;
     cmd_Process := None; cmd_ProcessState := None |}.

(** What the system answers to the calls of one [Connect]: the three
    pipe creations, [cmd.Start], and then the child's two streams. *)
Record Exec := {
  StdinPipe : error;
  StdoutPipe : error;
  StderrPipe : error;
  Start : string + Process;
  stdin_faults : nat -> error;
  stdout_stream : Decoder JSONRPCResponse
}.

Definition cmd_Start (env : Exec) (cmd : Cmd) : Cmd * error :=
  match env.(Start) with
  | inl msg => (cmd, Some msg)
  | inr p =>
      ({| Path := cmd.(Path); Args := cmd.(Args);
          cmd_Process := Some p;
          cmd_ProcessState := cmd.(cmd_ProcessState) |}, None)
  end.

Inductive Pipe := PipeOpen | PipeClosed.

Inductive Stream := Stdin | Stdout | Stderr.

(** The system-level actions of the client, in the order it takes them. *)
Inductive Event :=
| EvStart
| EvSleep (ms : N)
| EvClose (s : Stream)
| EvWait
| EvDone (at_ms : N)
| EvTimeout (ms : N)
| EvKill.

(** ** internal/mcp/client.go *)

Record Client := mkClient {
  serverCommand : list string;
  serverCmd : option Cmd;
  stdin : option Pipe;
  stdout : option Pipe;
  stderr : option Pipe;
  encoder : option (Encoder JSONRPCRequest);
  decoder : option (Decoder JSONRPCResponse);
  nextID : Z
}.

(** Go's [int] on a 64-bit platform: arithmetic wraps modulo 2^64 into
    [-2^63, 2^63). *)
Definition max_int : Z := 2 ^ 63 - 1.
Definition wrap_int (z : Z) : Z := (z + 2 ^ 63) mod 2 ^ 64 - 2 ^ 63.

Definition NewClient (serverCommand : list string) : Client :=
  {| serverCommand := serverCommand;
     serverCmd := None;
     stdin := None; stdout := None; stderr := None;
     encoder := None; decoder := None;
     nextID := 1 |}.

Definition set_nextID (n : Z) (c : Client) : Client :=
  mkClient c.(serverCommand) c.(serverCmd) c.(stdin) c.(stdout) c.(stderr)
    c.(encoder) c.(decoder) n.

Definition set_encoder (e : option (Encoder JSONRPCRequest)) (c : Client) : Client :=
  mkClient c.(serverCommand) c.(serverCmd) c.(stdin) c.(stdout) c.(stderr)
    e c.(decoder) c.(nextID).

Definition set_decoder (d : option (Decoder JSONRPCResponse)) (c : Client) : Client :=
  mkClient c.(serverCommand) c.(serverCmd) c.(stdin) c.(stdout) c.(stderr)
    c.(encoder) d c.(nextID).

(** How a call on the client ends: it returns a value, leaving the
    client in a new state and a trace of system actions behind; it hits
    a run-time panic (a nil dereference, an index out of range); or it
    blocks for ever. *)
Inductive Outcome (A : Type) : Type :=
| Returns (a : A) (c : Client) (tr : list Event)
| Panics
| Blocks (tr : list Event).
Arguments Returns {A}.
Arguments Panics {A}.
Arguments Blocks {A}.

Definition M (A : Type) : Type := Client -> Outcome A.

#[global] Instance M_ret : MRet M := fun A a c => Returns a c [].

#[global] Instance M_bind : MBind M := fun A B f m c =>
  match m c with
  | Returns a c' tr =>
      match f a c' with
      | Returns b c'' tr' => Returns b c'' (tr ++ tr')
      | Panics => Panics
      | Blocks tr' => Blocks (tr ++ tr')
      end
  | Panics => Panics
  | Blocks tr => Blocks tr
  end.

(** [%w] / [%s] formatting of the wrapped error. *)
Definition Errorf (prefix msg : string) : string := prefix +:+ msg.

Definition getNextID : M Z := fun c =>
  let id := c.(nextID) in
  Returns id (set_nextID (wrap_int (c.(nextID) + 1)) c) [].

Definition sendRequest (request : JSONRPCRequest) : M (string + JSONRPCResponse) :=
  fun c =>
  match c.(encoder) with
  | None => Returns (inl "client not connected") c []
  | Some enc =>
      match Encode enc request with
      | (enc', Some err) =>
          Returns (inl (Errorf "failed to send request: " err))
            (set_encoder (Some enc') c) []
      | (enc', None) =>
          let c1 := set_encoder (Some enc') c in
          match c1.(decoder) with
          | None => Panics
          | Some [] =>
              Returns (inl (Errorf "failed to decode response: " "EOF")) c1 []
          | Some (DecodeFail msg :: rest) =>
              Returns (inl (Errorf "failed to decode response: " msg))
                (set_decoder (Some rest) c1) []
          | Some (Decoded response :: rest) =>
              Returns (inr response) (set_decoder (Some rest) c1) []
          end
      end
  end.

(** [c.encoder.Encode(notification)] in [Initialize], outside the lock. *)
Definition encodeDirect (request : JSONRPCRequest) : M error := fun c =>
  match c.(encoder) with
  | None => Panics
  | Some enc =>
      let '(enc', err) := Encode enc request in
      Returns err (set_encoder (Some enc') c) []
  end.

(** The grace sleep of [Connect] and the shutdown timeout of [Close], in
    milliseconds. *)
Definition connectGrace : N := 100.
Definition closeTimeout : N := 5000.

Definition closeAll : list Event := [EvClose Stdin; EvClose Stdout; EvClose Stderr].

(** [cmd.ProcessState != nil && cmd.ProcessState.Exited()]. *)
Definition exitedAlready (cmd : Cmd) : option ProcessState :=
  match cmd.(cmd_ProcessState) with
  | Some st => if st.(Exited) then Some st else None
  | None => None
  end.

Definition Connect (env : Exec) : M error := fun c =>
  match c.(serverCmd) with
  | Some _ => Returns (Some "client already connected") c []
  | None =>
      let made :=
        match c.(serverCommand) with
        | [] => None
        | [path] => Some (Command path [])
        | path :: rest => Some (Command path rest)
        end in
      match made with
      | None => Panics
      | Some cmd =>
          match env.(StdinPipe) with
          | Some err =>
              Returns (Some (Errorf "failed to create stdin pipe: " err)) c []
          | None =>
          match env.(StdoutPipe) with
          | Some err =>
              Returns (Some (Errorf "failed to create stdout pipe: " err)) c
                [EvClose Stdin]
          | None =>
          match env.(StderrPipe) with
          | Some err =>
              Returns (Some (Errorf "failed to create stderr pipe: " err)) c
                [EvClose Stdin; EvClose Stdout]
          | None =>
          match cmd_Start env cmd with
          | (_, Some err) =>
              Returns (Some (Errorf "failed to start server: " err)) c closeAll
          | (cmd, None) =>
              match exitedAlready cmd with
              | Some st =>
                  Returns
                    (Some (Errorf "server process exited immediately: " st.(status)))
                    c ([EvStart; EvSleep connectGrace] ++ closeAll)
              | None =>
                  Returns None
                    {| serverCommand := c.(serverCommand);
                       serverCmd := Some cmd;
                       stdin := Some PipeOpen;
                       stdout := Some PipeOpen;
                       stderr := Some PipeOpen;
                       encoder := Some (NewEncoder env.(stdin_faults));
                       decoder := Some env.(stdout_stream);
                       nextID := c.(nextID) |}
                    [EvStart; EvSleep connectGrace]
              end
          end end end end
      end
  end.

(** When [cmd.Wait()] returns in the goroutine of [Close] if nobody
    kills the child; on a command that was never started it returns an
    error at once. *)
Definition waitReturns (cmd : Cmd) : option N :=
  match cmd.(cmd_Process) with
  | None => Some 0%N
  | Some p => p.(eof_exit)
  end.

(** When [<-done] completes after the kill sent at [closeTimeout]: the
    child is reclaimed, or had exited by itself before that. *)
Definition doneAfterKill (cmd : Cmd) : option N :=
  match cmd.(cmd_Process) with
  | None => Some 0%N
  | Some p =>
      match p.(eof_exit), p.(kill_exit) with
      | Some t, Some r => Some (N.min t (closeTimeout + r))
      | Some t, None => Some t
      | None, Some r => Some (closeTimeout + r)%N
      | None, None => None
      end
  end.

(** [Close].  Closing a pipe that was never set is a call on a nil
    interface.  The [select] takes the [done] case when [Wait] has
    returned before the timer fires, the timer case otherwise; in the
    timer case the child is killed and [<-done] awaited without limit. *)
Definition Close : M error := fun c =>
  match c.(serverCmd) with
  | None => Returns None c []
  | Some cmd =>
      match c.(stdin), c.(stdout), c.(stderr) with
      | Some _, Some _, Some _ =>
          let c' :=
            {| serverCommand := c.(serverCommand);
               serverCmd := None;
               stdin := Some PipeClosed;
               stdout := Some PipeClosed;
               stderr := Some PipeClosed;
               encoder := c.(encoder);
               decoder := c.(decoder);
               nextID := c.(nextID) |} in
          let begun := closeAll ++ [EvWait] in
          let timerCase :=
            match doneAfterKill cmd with
            | Some t' =>
                Returns None c' (begun ++ [EvTimeout closeTimeout; EvKill; EvDone t'])
            | None => Blocks (begun ++ [EvTimeout closeTimeout; EvKill])
            end in
          match waitReturns cmd with
          | Some t =>
              if (t <? closeTimeout)%N then Returns None c' (begun ++ [EvDone t])
              else timerCase
          | None => timerCase
          end
      | _, _, _ => Panics
      end
  end.

(** What [Connect] establishes and every later call but [Close] keeps:
    a command is attached and the three pipes are set. *)
Definition connected (c : Client) : Prop :=
  is_Some (serverCmd c) /\ is_Some (stdin c) /\
  is_Some (stdout c) /\ is_Some (stderr c).

(** The fields that make up the transport of a client. *)
Definition sameTransport (c c' : Client) : Prop :=
  serverCmd c' = serverCmd c /\ stdin c' = stdin c /\
  stdout c' = stdout c /\ stderr c' = stderr c.

Section ClientWithJson.
Context `{Json}.

Definition initializeRequest (id : Z) : JSONRPCRequest :=
  {| req_JSONRPC := "2.0";
     req_ID := VNum id;
     req_Method := "initialize";
     req_Params := PInitialize
       {| ireq_ProtocolVersion := "2024-11-05";
          ireq_Capabilities :=
            {| cc_Experimental := Some ∅; cc_Sampling := None |};
          ireq_ClientInfo :=
            {| ci_Name := "MCP Stock Analysis Client";
               ci_Version := "1.0.0" |} |} |}.

Definition initializedNotification : JSONRPCRequest :=
  {| req_JSONRPC := "2.0";
     req_ID := VNil;
     req_Method := "notifications/initialized";
     req_Params := PNil |}.

Definition Initialize : M (string + InitializeResponse) :=
  id ← getNextID;
  sent ← sendRequest (initializeRequest id);
  match sent with
  | inl err => mret (inl err)
  | inr response =>
      match response.(resp_Error) with
      | Some e => mret (inl (Errorf "initialize error: " e.(Message)))
      | None =>
          match remarshalInitializeResponse response.(resp_Result) with
          | inl err =>
              mret (inl (Errorf "failed to parse initialize response: " err))
          | inr initResponse =>
              err ← encodeDirect initializedNotification;
              match err with
              | Some err =>
                  mret (inl (Errorf "failed to send initialized notification: " err))
              | None => mret (inr initResponse)
              end
          end
      end
  end.

Definition ListTools : M (string + list Tool) :=
  id ← getNextID;
  sent ← sendRequest
    {| req_JSONRPC := "2.0"; req_ID := VNum id;
       req_Method := "tools/list"; req_Params := PNil |};
  match sent with
  | inl err => mret (inl err)
  | inr response =>
      match response.(resp_Error) with
      | Some e => mret (inl (Errorf "list tools error: " e.(Message)))
      | None =>
          match remarshalListToolsResponse response.(resp_Result) with
          | inl err =>
              mret (inl (Errorf "failed to parse list tools response: " err))
          | inr listResponse => mret (inr listResponse.(ltr_Tools))
          end
      end
  end.

Definition CallTool (name : string) (arguments : gmap string value)
    : M (string + CallToolResponse) :=
  id ← getNextID;
  sent ← sendRequest
    {| req_JSONRPC := "2.0"; req_ID := VNum id;
       req_Method := "tools/call";
       req_Params := PCallTool
         {| ctr_Name := name; ctr_Arguments := arguments |} |};
  match sent with
  | inl err => mret (inl err)
  | inr response =>
      match response.(resp_Error) with
      | Some e => mret (inl (Errorf "call tool error: " e.(Message)))
      | None =>
          match remarshalCallToolResponse response.(resp_Result) with
          | inl err =>
              mret (inl (Errorf "failed to parse call tool response: " err))
          | inr callResponse => mret (inr callResponse)
          end
      end
  end.

(** The replies on which [Initialize] fails: one that does not decode,
    one that carries an error, one whose result does not unmarshal. *)
Definition handshakeFails (reply : DecodeResult JSONRPCResponse) : Prop :=
  match reply with
  | DecodeFail _ => True
  | Decoded response =>
      resp_Error response <> None \/
      exists err, remarshalInitializeResponse (resp_Result response) = inl err
  end.

(** ** cmd/chatbot/main.go *)

(** [connectToMCPServer] from the point where [serverName] and [cmd]
    have been computed and [serverName] was found absent from
    [c.mcpClients]: a new client is connected and initialized; it is
    entered in the table when both succeed and closed when the
    handshake fails.  The value returned is the error and the table;
    the client in the outcome is the one created here. *)
Definition connectToMCPServer (mcpClients : gmap string Client)
    (serverName : string) (cmd : list string) (env : Exec)
    : Outcome (error * gmap string Client) :=
  (err ← Connect env;
   match err with
   | Some err =>
       mret (Some (Errorf ("failed to connect to " +:+ serverName +:+ ": ") err),
             mcpClients)
   | None =>
       r ← Initialize;
       match r with
       | inl err =>
           _ ← Close;
           mret (Some (Errorf ("failed to initialize " +:+ serverName +:+ ": ") err),
                 mcpClients)
       | inr initResponse =>
           fun client =>
             Returns (None, <[serverName := client]> mcpClients) client []
       end
   end) (NewClient cmd).

End ClientWithJson.

(** The id returned by each of [n] successive calls of [getNextID]. *)
Fixpoint allocate (n : nat) (c : Client) : list Z :=
  match n with
  | O => []
  | S n' =>
      match getNextID c with
      | Returns id c' _ => id :: allocate n' c'
      | _ => []
      end
  end.

(** ** cmd/chatbot/main.go: the table of clients

    [c.mcpClients] maps a server name to a pointer to its client; a
    call through the table changes the client the entry points to, which
    is written here as an update of the entry. *)

(** How a call on the host ends. *)
Inductive HostOutcome : Type :=
| HostReturns (mcpClients : gmap string Client) (tr : list Event)
| HostPanics
| HostBlocks (tr : list Event).

(** The rest of a loop over the table, after one client was dealt with
    at the cost of the actions [tr]. *)
Definition andThen (tr : list Event) (rest : HostOutcome) : HostOutcome :=
  match rest with
  | HostReturns mcpClients tr' => HostReturns mcpClients (tr ++ tr')
  | HostPanics => HostPanics
  | HostBlocks tr' => HostBlocks (tr ++ tr')
  end.

(** [disconnectFromMCPServer]: an unknown name is reported and nothing
    is done; otherwise the client is closed and its entry deleted. *)
Definition disconnectFromMCPServer (mcpClients : gmap string Client)
    (serverName : string) : HostOutcome :=
  match mcpClients !! serverName with
  | None => HostReturns mcpClients []
  | Some client =>
      match Close client with
      | Returns _ _ tr => HostReturns (delete serverName mcpClients) tr
      | Panics => HostPanics
      | Blocks tr => HostBlocks tr
      end
  end.

(** The loop of [cleanup] over the entries still to visit. *)
Fixpoint closeEach (entries : list (string * Client))
    (mcpClients : gmap string Client) : HostOutcome :=
  match entries with
  | [] => HostReturns mcpClients []
  | (name, client) :: rest =>
      match Close client with
      | Returns _ client' tr =>
          andThen tr (closeEach rest (<[name := client']> mcpClients))
      | Panics => HostPanics
      | Blocks tr => HostBlocks tr
      end
  end.

(** [cleanup]: every client of the table is closed, one after the
    other, in the order the range over the map happens to take. *)
Definition cleanup (mcpClients : gmap string Client) : HostOutcome :=
  closeEach (map_to_list mcpClients) mcpClients.

Section HostWithJson.
Context `{Json}.

(** The loop of [showConnectionStatus]: a client whose [ListTools]
    returns an error is closed and deleted from the table. *)
Fixpoint probeEach (entries : list (string * Client))
    (mcpClients : gmap string Client) : HostOutcome :=
  match entries with
  | [] => HostReturns mcpClients []
  | (name, client) :: rest =>
      match ListTools client with
      | Returns (inl _) client' tr =>
          match Close client' with
          | Returns _ _ tr' =>
              andThen (tr ++ tr') (probeEach rest (delete name mcpClients))
          | Panics => HostPanics
          | Blocks tr' => HostBlocks (tr ++ tr')
          end
      | Returns (inr _) client' tr =>
          andThen tr (probeEach rest (<[name := client']> mcpClients))
      | Panics => HostPanics
      | Blocks tr => HostBlocks tr
      end
  end.

Definition showConnectionStatus (mcpClients : gmap string Client) : HostOutcome :=
  if decide (size mcpClients = 0%nat) then HostReturns mcpClients []
  else probeEach (map_to_list mcpClients) mcpClients.

End HostWithJson.

(** ** Vocabulary of the statements *)

(** The arguments of one call of [RegisterTool]. *)
Record Registration := {
  reg_name : string;
  reg_description : string;
  reg_schema : value;
  reg_handler : ToolHandler
}.

(** A server set up the way [NewStockAnalyzerServer] and
    [registerTools] do it: [NewServer], then one [RegisterTool] after
    the other. *)
Definition registerAll (s : Server) (regs : list Registration) : Server :=
  foldl (fun s r =>
           RegisterTool s r.(reg_name) r.(reg_description) r.(reg_schema)
             r.(reg_handler))
        s regs.

(** The four error codes the server sends. *)
Definition serverCodes : list Z := [-32700; -32601; -32602; -32603].

(** An envelope as the server builds them: version 2.0 and either an
    error with one of the server's codes and no result, or no error and
    a result set (to the nil pointer, written as null, when a handler
    returned no result and no error). *)
Definition wellFormed (response : JSONRPCResponse) : Prop :=
  resp_JSONRPC response = "2.0" /\
  match resp_Error response with
  | Some e => resp_Result response = RNil /\ Code e ∈ serverCodes
  | None => resp_Result response <> RNil
  end.

(** What a tools/call request is answered with once the handler has
    run. *)
Definition toolAnswer (id : value) (outcome : option CallToolResponse * error)
    : JSONRPCResponse :=
  match outcome with
  | (_, Some msg) => errorResponse id (-32603) "Tool execution error" msg
  | (result, None) =>
      {| resp_JSONRPC := "2.0"; resp_ID := id;
         resp_Result := RCallTool result; resp_Error := None |}
  end.

(** The state [sendRequest] leaves when the request went out and a
    reply was decoded. *)
Definition afterReply (c : Client) (enc : Encoder JSONRPCRequest)
    (request : JSONRPCRequest) (rest : Decoder JSONRPCResponse) : Client :=
  set_decoder (Some rest)
    (set_encoder
       (Some (mkEncoder (written enc ++ [request]) (S (calls enc)) (faults enc))) c).

(** The state a client call leaves behind when nothing but the id
    counter has moved. *)
Definition idSpent (c : Client) : Client :=
  set_nextID (wrap_int (nextID c + 1)) c.



Section LoopVocabulary.
Context `{Json}.

(** The request is answered with [response] and the loop goes on: the
    switch hands back the encoder with [response] appended and no error;
    the run over the request and what follows it is the run over what
    follows, started from that encoder; what that run has written holds
    [response] right after what was written before; and over a writer
    that does not fail it returns nil, having then answered what follows
    in the stream as well, one envelope for each answered request, in
    order, and the parse error last if the stream breaks. *)
Definition answersAndGoesOn (s : Server) (encoder : Encoder JSONRPCResponse)
    (request : JSONRPCRequest) (rest : Decoder JSONRPCRequest)
    (response : JSONRPCResponse) : Prop :=
  let encoder' :=
    mkEncoder (written encoder ++ [response]) (S (calls encoder)) (faults encoder) in
  route s encoder request = (encoder', None) /\
  HandleRequest s (Decoded request :: rest) encoder = HandleRequest s rest encoder' /\
  (exists more,
      written (HandleRequest s (Decoded request :: rest) encoder).1 =
      written encoder ++ [response] ++ more) /\
  (reliable encoder ->
   exists encoder'' responses,
     HandleRequest s (Decoded request :: rest) encoder = (encoder'', None) /\
     written encoder'' =
       written encoder ++ [response] ++ responses ++
         match streamFailure rest with
         | Some msg => [errorResponse VNil (-32700) "Parse error" msg]
         | None => []
         end /\
     Forall2 (fun request response => resp_ID response = req_ID request)
       (filter answered (handled rest)) responses).

End LoopVocabulary.

(** The pipes a failed [Connect] had created, in the order of their
    creation: as many as succeeded before the first failure. *)
Definition pipesMade (env : Exec) : list Stream :=
  match StdinPipe env with
  | Some _ => []
  | None =>
      match StdoutPipe env with
      | Some _ => [Stdin]
      | None =>
          match StderrPipe env with
          | Some _ => [Stdin; Stdout]
          | None => [Stdin; Stdout; Stderr]
          end
      end
  end.

(** ** An instance of [Json] to run the model on examples

    Typed payloads come back unchanged from the round trip through JSON
    text.  A raw value is decoded the way [json.Unmarshal] fills the
    payload structs: a key belongs to a field when it equals the field's
    name up to the case of its ASCII letters, [null] leaves a field
    alone, a value of the wrong kind is an [UnmarshalTypeError], and the
    error returned is the first one met.  Since the value was marshalled
    from a map, its keys come in sorted order, so the fields are looked
    at in the alphabetical order of their names.  Left out: letters
    outside ASCII in keys, and which of several keys that fit one field
    wins (here the one written last).  Every theorem is proved for all
    instances of [Json]; this one only feeds the examples. *)

Definition lowerAscii (c : Ascii.ascii) : Ascii.ascii :=
  let n := Ascii.nat_of_ascii c in
  if ((65 <=? n) && (n <=? 90))%nat then Ascii.ascii_of_nat (n + 32) else c.

Fixpoint lower (s : string) : string :=
  match s with
  | EmptyString => EmptyString
  | String c rest => String (lowerAscii c) (lower rest)
  end.

Definition keyFits (name key : string) : bool :=
  bool_decide (lower name = lower key).

Fixpoint field (k : string) (fields : list (string * value)) : value :=
  match fields with
  | [] => VNil
  | (k', v) :: rest =>
      match field k rest with
      | VNil => if keyFits k k' then v else VNil
      | later => later
      end
  end.

(** The kind of JSON value that [UnmarshalTypeError] names. *)
Definition kindOf (v : value) : string :=
  match v with
  | VNil => "null"
  | VBool _ => "bool"
  | VNum _ => "number"
  | VStr _ => "string"
  | VArr _ => "array"
  | VObj _ => "object"
  end.

(** The text of an [UnmarshalTypeError]; [target] is "value of type T"
    at the top and "struct field S.path of type T" below it. *)
Definition typeError (v : value) (target : string) : string :=
  "json: cannot unmarshal " +:+ kindOf v +:+ " into Go " +:+ target.

Definition asString (target : string) (v : value) : string + string :=
  match v with
  | VNil => inr ""
  | VStr s => inr s
  | _ => inl (typeError v target)
  end.

Definition asMap (target : string) (v : value) : string + gmap string value :=
  match v with
  | VNil => inr ∅
  | VObj fields => inr (list_to_map (reverse fields))
  | _ => inl (typeError v target)
  end.

Definition asFields (target : string) (v : value) : string + list (string * value) :=
  match v with
  | VNil => inr []
  | VObj fields => inr fields
  | _ => inl (typeError v target)
  end.

Definition asBool (target : string) (v : value) : string + bool :=
  match v with
  | VNil => inr false
  | VBool b => inr b
  | _ => inl (typeError v target)
  end.

Definition asItems (target : string) (v : value) : string + list value :=
  match v with
  | VNil => inr []
  | VArr items => inr items
  | _ => inl (typeError v target)
  end.

(** A map field with [omitempty]: absent or [null] leaves it nil. *)
Definition asOptionalMap (target : string) (v : value)
    : string + option (gmap string value) :=
  match v with
  | VNil => inr None
  | VObj fields => inr (Some (list_to_map (reverse fields)))
  | _ => inl (typeError v target)
  end.

(** A pointer field: absent or [null] leaves it nil, an object
    allocates the struct. *)
Definition asPointer {A} (target : string) (mk : list (string * value) -> string + A)
    (v : value) : string + option A :=
  match v with
  | VNil => inr None
  | VObj fields =>
      match mk fields with inl err => inl err | inr a => inr (Some a) end
  | _ => inl (typeError v target)
  end.

(** The next field, once the fields before it are in: the first error
    met is the one returned. *)
Definition next {A B} (x : string + A) (k : A -> string + B) : string + B :=
  match x with
  | inl err => inl err
  | inr a => k a
  end.

(** Decode every element, stopping at the first error. *)
Fixpoint decodeAll {A} (f : value -> string + A) (items : list value)
    : string + list A :=
  match items with
  | [] => inr []
  | v :: rest =>
      next (f v) (fun a => next (decodeAll f rest) (fun l => inr (a :: l)))
  end.

Definition decodeCallToolRequest (v : value) : string + CallToolRequest :=
  next (asFields "value of type models.CallToolRequest" v) (fun fields =>
  next (asMap "struct field CallToolRequest.arguments of type map[string]interface {}"
          (field "arguments" fields)) (fun args =>
  next (asString "struct field CallToolRequest.name of type string"
          (field "name" fields)) (fun n =>
  inr {| ctr_Name := n; ctr_Arguments := args |}))).

Definition decodeClientCapabilities (fields : list (string * value))
    : string + ClientCapabilities :=
  next (asOptionalMap
          "struct field ClientCapabilities.capabilities.experimental of type map[string]interface {}"
          (field "experimental" fields)) (fun e =>
  next (asOptionalMap
          "struct field ClientCapabilities.capabilities.sampling of type map[string]interface {}"
          (field "sampling" fields)) (fun sm =>
  inr {| cc_Experimental := e; cc_Sampling := sm |})).

Definition decodeInitializeRequest (v : value) : string + InitializeRequest :=
  next (asFields "value of type models.InitializeRequest" v) (fun fields =>
  next (asFields
          "struct field InitializeRequest.capabilities of type models.ClientCapabilities"
          (field "capabilities" fields)) (fun caps =>
  next (decodeClientCapabilities caps) (fun cs =>
  next (asFields "struct field InitializeRequest.clientInfo of type models.ClientInfo"
          (field "clientInfo" fields)) (fun info =>
  next (asString "struct field ClientInfo.clientInfo.name of type string"
          (field "name" info)) (fun n =>
  next (asString "struct field ClientInfo.clientInfo.version of type string"
          (field "version" info)) (fun ver =>
  next (asString "struct field InitializeRequest.protocolVersion of type string"
          (field "protocolVersion" fields)) (fun pv =>
  inr {| ireq_ProtocolVersion := pv;
         ireq_Capabilities := cs;
         ireq_ClientInfo := {| ci_Name := n; ci_Version := ver |} |}))))))).

Definition decodeServerCapabilities (fields : list (string * value))
    : string + ServerCapabilities :=
  next (asOptionalMap
          "struct field ServerCapabilities.capabilities.experimental of type map[string]interface {}"
          (field "experimental" fields)) (fun e =>
  next (asPointer
          "struct field ServerCapabilities.capabilities.logging of type models.LoggingCapability"
          (fun _ => inr Build_LoggingCapability)
          (field "logging" fields)) (fun l =>
  next (asPointer
          "struct field ServerCapabilities.capabilities.prompts of type models.PromptsCapability"
          (fun fs =>
             next (asBool
                     "struct field PromptsCapability.capabilities.prompts.listChanged of type bool"
                     (field "listChanged" fs)) (fun b =>
             inr {| pc_ListChanged := b |}))
          (field "prompts" fields)) (fun p =>
  next (asPointer
          "struct field ServerCapabilities.capabilities.resources of type models.ResourcesCapability"
          (fun fs =>
             next (asBool
                     "struct field ResourcesCapability.capabilities.resources.listChanged of type bool"
                     (field "listChanged" fs)) (fun b =>
             next (asBool
                     "struct field ResourcesCapability.capabilities.resources.subscribe of type bool"
                     (field "subscribe" fs)) (fun a =>
             inr {| rc_Subscribe := a; rc_ListChanged := b |})))
          (field "resources" fields)) (fun r =>
  next (asPointer
          "struct field ServerCapabilities.capabilities.tools of type models.ToolsCapability"
          (fun fs =>
             next (asBool
                     "struct field ToolsCapability.capabilities.tools.listChanged of type bool"
                     (field "listChanged" fs)) (fun b =>
             inr {| tc_ListChanged := b |}))
          (field "tools" fields)) (fun t =>
  inr {| Logging := l; Prompts := p; Resources := r; Tools := t;
         Experimental := e |}))))).

Definition decodeInitializeResponse (v : value) : string + InitializeResponse :=
  next (asFields "value of type models.InitializeResponse" v) (fun fields =>
  next (asFields
          "struct field InitializeResponse.capabilities of type models.ServerCapabilities"
          (field "capabilities" fields)) (fun caps =>
  next (decodeServerCapabilities caps) (fun cs =>
  next (asString "struct field InitializeResponse.protocolVersion of type string"
          (field "protocolVersion" fields)) (fun pv =>
  next (asFields "struct field InitializeResponse.serverInfo of type models.ServerInfo"
          (field "serverInfo" fields)) (fun info =>
  next (asString "struct field ServerInfo.serverInfo.name of type string"
          (field "name" info)) (fun n =>
  next (asString "struct field ServerInfo.serverInfo.version of type string"
          (field "version" info)) (fun ver =>
  inr {| ires_ProtocolVersion := pv;
         ires_Capabilities := cs;
         ires_ServerInfo := {| si_Name := n; si_Version := ver |} |}))))))).

Definition decodeTool (v : value) : string + Tool :=
  next (asFields "struct field ListToolsResponse.tools of type models.Tool" v)
    (fun fields =>
  next (asString "struct field Tool.tools.description of type string"
          (field "description" fields)) (fun d =>
  next (asString "struct field Tool.tools.name of type string"
          (field "name" fields)) (fun n =>
  inr {| Name := n; Description := d;
         InputSchema := field "inputSchema" fields |}))).

Definition decodeListToolsResponse (v : value) : string + ListToolsResponse :=
  next (asFields "value of type models.ListToolsResponse" v) (fun fields =>
  next (asItems "struct field ListToolsResponse.tools of type []models.Tool"
          (field "tools" fields)) (fun items =>
  next (decodeAll decodeTool items) (fun ts =>
  inr {| ltr_Tools := ts |}))).

Definition decodeContent (v : value) : string + Content :=
  next (asFields "struct field CallToolResponse.content of type models.Content" v)
    (fun fields =>
  next (asString "struct field Content.content.text of type string"
          (field "text" fields)) (fun tx =>
  next (asString "struct field Content.content.type of type string"
          (field "type" fields)) (fun ty =>
  inr {| Type_ := ty; Text := tx |}))).

Definition decodeCallToolResponse (v : value) : string + CallToolResponse :=
  next (asFields "value of type models.CallToolResponse" v) (fun fields =>
  next (asItems "struct field CallToolResponse.content of type []models.Content"
          (field "content" fields)) (fun items =>
  next (decodeAll decodeContent items) (fun cs =>
  next (asBool "struct field CallToolResponse.isError of type bool"
          (field "isError" fields)) (fun b =>
  inr {| Content_ := cs; IsError := b |})))).

(** A payload of the wrong struct type shares no key with the target,
    which is then left at its zero value: the same as decoding [null]. *)
#[global] Instance exampleJson : Json := {|
  remarshalInitializeRequest p :=
    match p with
    | PInitialize r => inr r
    | PRaw v => decodeInitializeRequest v
    | PNil | PCallTool _ => decodeInitializeRequest VNil
    end;
  remarshalCallToolRequest p :=
    match p with
    | PCallTool r => inr r
    | PRaw v => decodeCallToolRequest v
    | PNil | PInitialize _ => decodeCallToolRequest VNil
    end;
  remarshalInitializeResponse r :=
    match r with
    | RInitialize r => inr r
    | RRaw v => decodeInitializeResponse v
    | RNil | RListTools _ | RCallTool _ => decodeInitializeResponse VNil
    end;
  remarshalListToolsResponse r :=
    match r with
    | RListTools r => inr r
    | RRaw v => decodeListToolsResponse v
    | RNil | RInitialize _ | RCallTool _ => decodeListToolsResponse VNil
    end;
  remarshalCallToolResponse r :=
    match r with
    | RCallTool (Some r) => inr r
    | RRaw v => decodeCallToolResponse v
    | RNil | RInitialize _ | RListTools _ | RCallTool None =>
        decodeCallToolResponse VNil
    end
|}.

(** ** Concrete inputs for the examples *)

(** A writer that never fails. *)
Definition okWriter : nat -> error := fun _ => None.

(** A handler with the argument checks of [handleGetStockPrice]; the
    stock analysis behind them lies outside the protocol engine and is
    replaced by a text naming the symbol. *)
Definition priceHandler : ToolHandler := fun args =>
  match args !! "symbol" with
  | None => (None, Some "symbol parameter is required")
  | Some (VStr symbol) =>
      (Some {| Content_ := [{| Type_ := "text"; Text := symbol |}];
               IsError := false |}, None)
  | Some _ => (None, Some "symbol must be a string")
  end.

(** Two of the registrations of [registerTools] in
    [servers/stock-analyzer/main.go]. *)
Definition exampleServer : Server :=
  RegisterTool
    (RegisterTool (NewServer "Stock Analyzer MCP Server" "2.0.0")
       "get_price_prediction"
       "Get price predictions with confidence intervals and timeframes"
       VNil priceHandler)
    "get_stock_price" "Basic stock price information (legacy)" VNil priceHandler.

Definition request (id : value) (method : string) (params : Params) : JSONRPCRequest :=
  {| req_JSONRPC := "2.0"; req_ID := id; req_Method := method; req_Params := params |}.

(** [tools/call] of [get_stock_price] without its [symbol] argument. *)
Definition badCall : JSONRPCRequest :=
  request (VNum 7) "tools/call"
    (PRaw (VObj [("name", VStr "get_stock_price"); ("arguments", VObj [])])).

Definition goodCall : JSONRPCRequest :=
  request (VStr "a-1") "tools/call"
    (PRaw (VObj [("name", VStr "get_stock_price");
                 ("arguments", VObj [("symbol", VStr "AAPL")])])).

Definition exampleInput : Decoder JSONRPCRequest :=
  [Decoded (request (VNum 1) "initialize" PNil);
   Decoded (request VNil "notifications/initialized" PNil);
   Decoded (request (VNum 2) "tools/list" PNil);
   Decoded badCall;
   Decoded goodCall;
   Decoded (request (VNum 3) "bogus" PNil)].

(** A child that exits at once, as [/bin/false] does. *)
Definition shortLived : Process :=
  {| Pid := 4242; self_exit := Some 0%N; eof_exit := Some 0%N;
     kill_exit := Some 0%N |}.

(** A child that ignores the closing of its pipes and is reclaimed 20 ms
    after the kill. *)
Definition stubborn : Process :=
  {| Pid := 4243; self_exit := None; eof_exit := None; kill_exit := Some 20%N |}.

(** A system in which every call of [Connect] succeeds, for a given
    child and a given stream of replies. *)
Definition spawning (child : Process) (replies : Decoder JSONRPCResponse) : Exec :=
  {| StdinPipe := None; StdoutPipe := None; StderrPipe := None;
     Start := inr child;
     stdin_faults := okWriter;
     stdout_stream := replies |}.

(** A client connected to [child], as [Connect] leaves it. *)
Definition connectedTo (child : Process) (replies : Decoder JSONRPCResponse) : Client :=
  {| serverCommand := ["./bin/stock-analyzer"];
     serverCmd := Some {| Path := "./bin/stock-analyzer";
                          Args := ["./bin/stock-analyzer"];
                          cmd_Process := Some child;
                          cmd_ProcessState := None |};
     stdin := Some PipeOpen; stdout := Some PipeOpen; stderr := Some PipeOpen;
     encoder := Some (NewEncoder okWriter);
     decoder := Some replies;
     nextID := 1 |}.

(** A reply that refuses the handshake; its id is not the request's. *)
Definition refusal : JSONRPCResponse :=
  errorResponse (VNum 41) (-32602) "Invalid params" "unsupported protocol version".

(** A writer whose write number [k] (counted from 0) fails, as on a
    pipe the reader has closed. *)
Definition failingAt (k : nat) : nat -> error :=
  fun n => if (n =? k)%nat then Some "write |1: broken pipe" else None.

(** Registrations in the manner of [registerTools], one name twice. *)
Definition exampleRegistrations : list Registration :=
  [{| reg_name := "get_stock_price";
      reg_description := "Basic stock price information (legacy)";
      reg_schema := VNil;
      reg_handler := fun _ => (None, Some "not ready") |};
   {| reg_name := "get_price_prediction";
      reg_description := "Get price predictions with confidence intervals and timeframes";
      reg_schema := VNil;
      reg_handler := priceHandler |};
   {| reg_name := "get_stock_price";
      reg_description := "Basic stock price information (legacy)";
      reg_schema := VNil;
      reg_handler := priceHandler |}].

(** A tools/call request whose params are a number. *)
Definition malformedCall : JSONRPCRequest :=
  request (VNum 8) "tools/call" (PRaw (VNum 5)).

(** The reply of [exampleServer] to the handshake. *)
Definition handshakeReply : JSONRPCResponse :=
  {| resp_JSONRPC := "2.0"; resp_ID := VNum 1;
     resp_Result := RInitialize
       {| ires_ProtocolVersion := "2024-11-05";
          ires_Capabilities := s_capabilities exampleServer;
          ires_ServerInfo :=
            {| si_Name := "Stock Analyzer MCP Server"; si_Version := "2.0.0" |} |};
     resp_Error := None |}.

(** A tool result that reports its own failure, as [handleGetStockPrice]
    builds it when the analysis fails. *)
Definition failedLookup : CallToolResponse :=
  {| Content_ := [{| Type_ := "text";
                     Text := "Error getting stock price for ZZZZ: symbol not found" |}];
     IsError := true |}.

Definition failedLookupReply : JSONRPCResponse :=
  {| resp_JSONRPC := "2.0"; resp_ID := VNum 1;
     resp_Result := RCallTool (Some failedLookup); resp_Error := None |}.

(** A reply to tools/list that lists nothing. *)
Definition emptyListing : JSONRPCResponse :=
  {| resp_JSONRPC := "2.0"; resp_ID := VNum 1;
     resp_Result := RListTools {| ltr_Tools := [] |}; resp_Error := None |}.

(** A connected client whose writer fails from write number [k] on its
    own. *)
Definition connectedOver (k : nat) (child : Process)
    (replies : Decoder JSONRPCResponse) : Client :=
  {| serverCommand := ["./bin/stock-analyzer"];
     serverCmd := Some {| Path := "./bin/stock-analyzer";
                          Args := ["./bin/stock-analyzer"];
                          cmd_Process := Some child;
                          cmd_ProcessState := None |};
     stdin := Some PipeOpen; stdout := Some PipeOpen; stderr := Some PipeOpen;
     encoder := Some (NewEncoder (failingAt k));
     decoder := Some replies;
     nextID := 1 |}.

(** A system in which the third pipe cannot be created. *)
Definition outOfDescriptors : Exec :=
  {| StdinPipe := None; StdoutPipe := None;
     StderrPipe := Some "pipe: too many open files";
     Start := inr shortLived;
     stdin_faults := okWriter;
     stdout_stream := [] |}.

(** A table of three clients: one whose server lists its tools, one
    whose server answers with an error, one whose server has gone. *)
Definition exampleTable : gmap string Client :=
  <["stock-analyzer" := connectedTo shortLived [Decoded emptyListing]]>
  (<["main.go" := connectedTo stubborn [Decoded refusal]]>
  (<["gone" := connectedTo shortLived []]> ∅)).

(** A child that neither exits when its pipes are closed nor is ever
    reclaimed after the kill, as a process stuck in an uninterruptible
    system call. *)
Definition unkillable : Process :=
  {| Pid := 4244; self_exit := None; eof_exit := None; kill_exit := None |}.

(** A tools/call request for a tool [exampleServer] does not have. *)
Definition strangerCall : JSONRPCRequest :=
  request (VNum 9) "tools/call"
    (PRaw (VObj [("name", VStr "analyze_portfolio"); ("arguments", VObj [])])).


Definition deliveredRequests : list JSONRPCRequest :=
  [request (VNum 1) "initialize" PNil;
   request (VStr "a-1") "tools/list" PNil;
   request (VNum 9007199254740992) "tools/list" PNil].

(** * Properties of the server *)

Section EncoderFacts.
Context {A : Type}.

Lemma Encode_ok (e : Encoder A) (v : A) :
  faults e (calls e) = None ->
  Encode e v = (mkEncoder (written e ++ [v]) (S (calls e)) (faults e), None).
Proof. intros Hok. unfold Encode. by rewrite Hok. Qed.

Lemma Encode_fail (e : Encoder A) (v : A) msg :
  faults e (calls e) = Some msg ->
  Encode e v = (mkEncoder (written e) (S (calls e)) (faults e), Some msg).
Proof. intros Hko. unfold Encode. by rewrite Hko. Qed.

Lemma Encode_reliable (e : Encoder A) (v : A) :
  reliable e ->
  exists e', Encode e v = (e', None) /\ written e' = written e ++ [v] /\ reliable e'.
Proof.
  intros Hrel. eexists. split; [apply Encode_ok, Hrel|]. split; [done|].
  intros n. apply Hrel.
Qed.

(** Whatever the writer does, one [Encode] adds at most the value it
    was given. *)
Lemma Encode_written (e e' : Encoder A) (v : A) err :
  Encode e v = (e', err) ->
  (err = None /\ written e' = written e ++ [v]) \/
  (err <> None /\ written e' = written e).
Proof.
  unfold Encode. destruct (faults e (calls e)); intros [= <- <-]; [right|left]; done.
Qed.
End EncoderFacts.

Lemma sendError_Encode encoder id code message data :
  sendError encoder id code message data =
  Encode encoder (errorResponse id code message data).
Proof. reflexivity. Qed.

Section ServerFacts.
Context `{Json}.

(** What each handler hands to [Encode], if anything: the envelope the
    request is answered with. *)
Lemma route_answer s encoder request :
  answered request ->
  exists response,
    route s encoder request = Encode encoder response /\
    resp_ID response = req_ID request.
Proof.
  intros Hans. unfold route.
  repeat case_decide.
  - unfold handleInitialize. destruct (initializeParams request); eauto.
  - unfold handleListTools. eauto.
  - unfold handleCallTool. destruct (callToolParams request) as [msg|callReq]; eauto.
    destruct (s_tools s !! ctr_Name callReq) as [handler|]; eauto.
    destruct (handler (ctr_Arguments callReq)) as [result [msg|]]; eauto.
  - by destruct Hans.
  - eauto.
Qed.

Lemma route_silent s encoder request :
  ~ answered request -> route s encoder request = (encoder, None).
Proof.
  intros Hnot. unfold route.
  assert (Heq : req_Method request = "notifications/initialized").
  { unfold answered in Hnot. destruct (decide (req_Method request = "notifications/initialized")); [done|]. by destruct Hnot. }
  rewrite Heq. reflexivity.
Qed.

(** The whole run of the loop over a reliable writer: the output is
    one envelope per answered request, in order and with the request's
    id, followed by the parse error if the stream broke. *)
Lemma HandleRequest_output s input encoder :
  reliable encoder ->
  exists encoder' responses,
    HandleRequest s input encoder = (encoder', None) /\
    written encoder' =
      written encoder ++ responses ++
        match streamFailure input with
        | Some msg => [errorResponse VNil (-32700) "Parse error" msg]
        | None => []
        end /\
    Forall2 (fun request response => resp_ID response = req_ID request)
      (filter answered (handled input)) responses.
Proof.
  revert encoder. induction input as [|[request|msg] rest IH]; intros encoder Hrel.
  - exists encoder, []. simpl. rewrite !app_nil_r. split_and!; [done|done|constructor].
  - simpl. destruct (decide (answered request)) as [Hans|Hnot].
    + destruct (route_answer s encoder request Hans) as (response & Hroute & Hid).
      destruct (Encode_reliable encoder response Hrel) as (e1 & Henc & Hw & Hrel1).
      rewrite Hroute, Henc.
      destruct (IH e1 Hrel1) as (e2 & responses & Hrun & Hout & Hall).
      exists e2, (response :: responses). split_and!; [done| |].
      * rewrite Hout, Hw. by rewrite <- !app_assoc.
      * rewrite filter_cons_True by done. by constructor.
    + rewrite route_silent by done.
      destruct (IH encoder Hrel) as (e2 & responses & Hrun & Hout & Hall).
      exists e2, responses. split_and!; [done|done|].
      by rewrite filter_cons_False.
  - simpl. rewrite sendError_Encode.
    destruct (Encode_reliable encoder (errorResponse VNil (-32700) "Parse error" msg) Hrel)
      as (e1 & Henc & Hw & _).
    exists e1, []. split_and!; [done|by rewrite Hw|constructor].
Qed.

End ServerFacts.

Section ServerClaims.
Context `{Json}.

(** C3, as the loop has it.  At the end of the stream the loop returns
    nil and writes nothing for it.  At any other decode failure it
    sends the error -32700 without an id and returns what that send
    returned: nothing that follows in the stream is looked at.  Over a
    writer that does not fail the run therefore returns nil, and its
    output ends with the parse error exactly when the stream broke. *)
Theorem decode_failure_ends_loop s input encoder :
  reliable encoder ->
  HandleRequest s [] encoder = (encoder, None) /\
  (forall msg rest,
      HandleRequest s (DecodeFail msg :: rest) encoder =
      sendError encoder VNil (-32700) "Parse error" msg) /\
  (forall before msg rest,
      HandleRequest s (before ++ DecodeFail msg :: rest) encoder =
      HandleRequest s (before ++ [DecodeFail msg]) encoder) /\
  exists encoder' responses,
    HandleRequest s input encoder = (encoder', None) /\
    Forall2 (fun request response => resp_ID response = req_ID request)
      (filter answered (handled input)) responses /\
    written encoder' =
      written encoder ++ responses ++
        match streamFailure input with
        | Some msg =>
            [{| resp_JSONRPC := "2.0";
                resp_ID := VNil;
                resp_Result := RNil;
                resp_Error := Some {| Code := -32700;
                                      Message := "Parse error";
                                      Data := VStr msg |} |}]
        | None => []
        end.
Proof.
  intros Hrel. split_and!; [done|done| |].
  - intros before msg rest. revert encoder Hrel.
    induction before as [|[request|msg'] before IH]; intros encoder Hrel; simpl; [done| |done].
    destruct (route s encoder request) as [e1 [err|]] eqn:Hroute; [done|].
    apply IH. intros n.
    destruct (decide (answered request)) as [Hans|Hnot].
    + destruct (route_answer s encoder request Hans) as (response & Hr & _).
      rewrite Hr in Hroute. unfold Encode in Hroute.
      destruct (faults encoder (calls encoder)); [done|].
      injection Hroute as <-. apply Hrel.
    + rewrite route_silent in Hroute by done. injection Hroute as <-. apply Hrel.
  - destruct (HandleRequest_output s input encoder Hrel)
      as (e1 & responses & Hrun & Hout & Hall).
    by exists e1, responses.
Qed.

(** C4, as the switch has it.  An envelope whose method is
    notifications/initialized, with or without an id, is accepted
    without anything being written, and the loop goes on. *)
Theorem initialized_notification_silent s encoder request rest :
  req_Method request = "notifications/initialized" ->
  route s encoder request = (encoder, None) /\
  HandleRequest s (Decoded request :: rest) encoder = HandleRequest s rest encoder.
Proof.
  intros Hm.
  assert (Hroute : route s encoder request = (encoder, None)).
  { apply route_silent. unfold answered. by rewrite Hm; intros []. }
  split; [done|]. simpl. by rewrite Hroute.
Qed.

End ServerClaims.

Lemma decode_failure_ends_loop_witness :
  reliable (NewEncoder (A:=JSONRPCResponse) okWriter) /\
  forall rest,
    HandleRequest exampleServer (DecodeFail "unexpected end of JSON input" :: rest)
      (NewEncoder okWriter) =
    sendError (NewEncoder okWriter) VNil (-32700) "Parse error"
      "unexpected end of JSON input".
Proof.
  split.
  - intros n. reflexivity.
  - intros rest.
    apply (decode_failure_ends_loop exampleServer [] (NewEncoder okWriter)).
    intros n. reflexivity.
Defined.

(** C3 as stated fails: a decode failure that leaves the stream usable
    (Go's decoder reports a value of the wrong type and goes on to the
    next value) still ends the loop; the well-formed request that
    follows it is never answered. *)
Lemma decode_failure_does_not_continue :
  let input :=
    [DecodeFail "json: cannot unmarshal number into Go struct field JSONRPCRequest.method of type string";
     Decoded (request (VNum 2) "tools/list" PNil)] in
  let out := written (HandleRequest exampleServer input (NewEncoder okWriter)).1 in
  out = [errorResponse VNil (-32700) "Parse error"
           "json: cannot unmarshal number into Go struct field JSONRPCRequest.method of type string"] /\
  ~ (exists response, response ∈ out /\ resp_ID response = VNum 2).
Proof.
  split; [reflexivity|].
  intros (response & Hin & Hid). simpl in Hin.
  apply list_elem_of_singleton in Hin. subst response. discriminate Hid.
Qed.

Lemma initialized_notification_silent_witness :
  HandleRequest exampleServer
    [Decoded (request VNil "notifications/initialized" PNil); Decoded goodCall]
    (NewEncoder okWriter) =
  HandleRequest exampleServer [Decoded goodCall] (NewEncoder okWriter).
Proof.
  apply (initialized_notification_silent exampleServer (NewEncoder okWriter)
           (request VNil "notifications/initialized" PNil) [Decoded goodCall]).
  reflexivity.
Defined.

(** C4 as stated fails: an envelope without an id is answered unless its
    method is notifications/initialized; here a cancellation notice
    draws a method-not-found envelope. *)
Lemma notification_answered :
  let notice := request VNil "notifications/cancelled" PNil in
  req_ID notice = VNil /\
  written (HandleRequest exampleServer [Decoded notice] (NewEncoder okWriter)).1 =
    [errorResponse VNil (-32601) "Method not found" "notifications/cancelled"].
Proof. split; reflexivity. Qed.

(** ** The registry and its listing *)

Lemma RegisterTool_names s name description inputSchema handler :
  dom (s_tools (RegisterTool s name description inputSchema handler)) =
  {[name]} ∪ dom (s_tools s).
Proof. unfold RegisterTool. simpl. apply dom_insert_L. Qed.

(** Nothing of a registration but the name and the handler reaches the
    server. *)
Lemma RegisterTool_forgets s name d1 d2 sc1 sc2 handler :
  RegisterTool s name d1 sc1 handler = RegisterTool s name d2 sc2 handler.
Proof. reflexivity. Qed.

Section ListingFacts.
Context `{Json}.

(** The names listed are the registered names, each once. *)
Lemma handleListTools_names s encoder request encoder' :
  handleListTools s encoder request = (encoder', None) ->
  exists listed,
    written encoder' = written encoder ++
      [{| resp_JSONRPC := "2.0"; resp_ID := req_ID request;
          resp_Result := RListTools {| ltr_Tools := listed |};
          resp_Error := None |}] /\
    NoDup (Name <$> listed) /\
    forall name, name ∈ (Name <$> listed) <-> name ∈ dom (s_tools s).
Proof.
  unfold handleListTools. intros Henc.
  apply Encode_written in Henc as [[_ Hw]|[Hne _]]; [|done].
  eexists. split; [exact Hw|].
  rewrite <- list_fmap_compose.
  assert (Hnames : (Name ∘ listedTool s) <$> (map_to_list (s_tools s)).*1
                   = (map_to_list (s_tools s)).*1).
  { rewrite <- (list_fmap_id ((map_to_list (s_tools s)).*1)) at 2.
    by apply list_fmap_ext. }
  rewrite Hnames. split; [apply NoDup_fst_map_to_list|].
  intros name. rewrite elem_of_dom. split.
  - intros Hin. apply list_elem_of_fmap in Hin as ([k h] & -> & Hin).
    apply elem_of_map_to_list in Hin. by eexists.
  - intros [h Hh]. apply list_elem_of_fmap. exists (name, h).
    split; [done|]. by apply elem_of_map_to_list.
Qed.

(** A tool is listed with the description and schema that the two
    tables inside the server hold for its name. *)
Lemma handleListTools_metadata s encoder request encoder' listed tool :
  handleListTools s encoder request = (encoder', None) ->
  written encoder' = written encoder ++
    [{| resp_JSONRPC := "2.0"; resp_ID := req_ID request;
        resp_Result := RListTools {| ltr_Tools := listed |};
        resp_Error := None |}] ->
  tool ∈ listed ->
  Description tool = default "" (descriptions !! Name tool) /\
  InputSchema tool = inputSchemaFor (Name tool).
Proof.
  unfold handleListTools. intros Henc Hw Hin.
  apply Encode_written in Henc as [[_ Hw']|[Hne _]]; [|done].
  rewrite Hw' in Hw. apply app_inv_head in Hw. injection Hw as <-.
  apply list_elem_of_fmap in Hin as (name & -> & _). done.
Qed.

End ListingFacts.

(** C5 on the code.  Registered as in [registerTools], with the
    descriptions declared there and no schema, get_price_prediction is
    listed with an empty description and analyze_portfolio with another
    description than the declared one and with a schema that was never
    declared. *)
Theorem declared_metadata_not_listed :
  let s :=
    RegisterTool
      (RegisterTool (NewServer "Stock Analyzer MCP Server" "2.0.0")
         "get_price_prediction"
         "Get price predictions with confidence intervals and timeframes"
         VNil priceHandler)
      "analyze_portfolio" "Basic portfolio analysis (legacy)" VNil priceHandler in
  exists listed,
    written (handleListTools s (NewEncoder okWriter)
               (request (VNum 2) "tools/list" PNil)).1 =
      [{| resp_JSONRPC := "2.0"; resp_ID := VNum 2;
          resp_Result := RListTools {| ltr_Tools := listed |};
          resp_Error := None |}] /\
    length listed = 2%nat /\
    {| Name := "get_price_prediction"; Description := ""; InputSchema := VNil |}
      ∈ listed /\
    {| Name := "analyze_portfolio";
       Description :=
         "Analyze a portfolio of stocks and provide investment recommendations";
       InputSchema := schema_analyze_portfolio |} ∈ listed.
Proof.
  eexists. split; [vm_compute; reflexivity|].
  split; [reflexivity|]. split; repeat constructor.
Qed.

(** * Properties of the client *)

(** ** Connect *)

(** [Start] leaves [ProcessState] as [exec.Command] made it. *)
Lemma cmd_Start_ProcessState env cmd cmd' err :
  cmd_Start env cmd = (cmd', err) -> cmd_ProcessState cmd' = cmd_ProcessState cmd.
Proof. unfold cmd_Start. destruct (Start env); by intros [= <- <-]. Qed.

(** Once the pipes exist and the child is started, [Connect] succeeds,
    whatever the child does during the grace sleep. *)
Lemma Connect_after_Start env c path args child :
  serverCmd c = None ->
  serverCommand c = path :: args ->
  StdinPipe env = None -> StdoutPipe env = None -> StderrPipe env = None ->
  Start env = inr child ->
  exists c',
    Connect env c = Returns None c' [EvStart; EvSleep connectGrace] /\
    serverCmd c' =
      Some {| Path := path; Args := path :: args;
              cmd_Process := Some child; cmd_ProcessState := None |} /\
    stdin c' = Some PipeOpen /\ stdout c' = Some PipeOpen /\
    stderr c' = Some PipeOpen /\
    encoder c' = Some (NewEncoder (stdin_faults env)) /\
    decoder c' = Some (stdout_stream env) /\
    nextID c' = nextID c.
Proof.
  intros Hcmd Hcommand Hin Hout Herr Hstart.
  unfold Connect. rewrite Hcmd, Hcommand, Hin, Hout, Herr.
  unfold cmd_Start. rewrite Hstart.
  destruct args as [|arg args]; simpl; eexists; (split; [reflexivity|]); done.
Qed.

(** A successful [Connect] leaves the client connected. *)
Lemma Connect_connected env c c' tr :
  Connect env c = Returns None c' tr -> connected c'.
Proof.
  unfold Connect, connected. intros Hconnect.
  repeat case_match; simplify_eq; cbn; split_and!; by eexists.
Qed.

(** C6 on the code.  [/bin/false] is spawned without trouble and has
    exited long before the grace sleep is over; [Connect] returns nil
    and hands out a client bound to the dead child, since nothing has
    filled in [cmd.ProcessState]. *)
Theorem immediate_exit_undetected :
  self_exit shortLived = Some 0%N /\
  exists c,
    Connect (spawning shortLived []) (NewClient ["/bin/false"]) =
      Returns None c [EvStart; EvSleep connectGrace] /\
    serverCmd c =
      Some {| Path := "/bin/false"; Args := ["/bin/false"];
              cmd_Process := Some shortLived; cmd_ProcessState := None |} /\
    stdin c = Some PipeOpen.
Proof. split; [reflexivity|]. eexists. split; [reflexivity|]. split; reflexivity. Qed.

(** ** Request ids *)

Lemma wrap_int_small z : - 2 ^ 63 <= z < 2 ^ 63 -> wrap_int z = z.
Proof. intros Hz. unfold wrap_int. rewrite Z.mod_small; lia. Qed.

Lemma allocate_from n : forall c,
  1 <= nextID c ->
  nextID c + Z.of_nat n <= max_int + 1 ->
  allocate n c = (fun i => nextID c + Z.of_nat i) <$> seq 0 n.
Proof.
  induction n as [|n IH]; intros c Hlo Hhi; [done|].
  cbn [allocate getNextID].
  destruct n as [|n].
  { cbn [allocate seq fmap list_fmap]. f_equal. lia. }
  assert (Hnext : nextID (set_nextID (wrap_int (nextID c + 1)) c) = nextID c + 1).
  { cbn [set_nextID nextID]. apply wrap_int_small. unfold max_int in Hhi. lia. }
  rewrite IH, Hnext by (rewrite Hnext; lia).
  change (seq 0 (S (S n))) with (0%nat :: seq 1 (S n)).
  rewrite fmap_cons. f_equal; [lia|].
  rewrite <- seq_shift, <- list_fmap_compose.
  apply list_fmap_ext. intros i x _. simpl. lia.
Qed.

Lemma ascending_sorted n : forall a, StronglySorted Z.lt (Z.of_nat <$> seq a n).
Proof.
  induction n as [|n IH]; intros a; cbn [seq fmap list_fmap]; constructor; [apply IH|].
  apply Forall_fmap, Forall_seq. intros i Hi. simpl. lia.
Qed.

(** C9 (monotonic ids).  The ids handed out by the first [n] calls of
    [getNextID] on a new client are 1, 2, ..., n: strictly increasing
    and without repetition.  [n] ranges over the allocations that keep
    the counter within Go's [int], that is up to 2^63 - 1 of them. *)
Theorem ids_monotonic serverCommand n :
  Z.of_nat n <= max_int ->
  allocate n (NewClient serverCommand) = Z.of_nat <$> seq 1 n /\
  StronglySorted Z.lt (allocate n (NewClient serverCommand)) /\
  NoDup (allocate n (NewClient serverCommand)).
Proof.
  intros Hn.
  assert (Hids : allocate n (NewClient serverCommand) = Z.of_nat <$> seq 1 n).
  { rewrite allocate_from by (simpl; lia).
    rewrite <- seq_shift, <- list_fmap_compose.
    apply list_fmap_ext. intros i x _. simpl. lia. }
  rewrite Hids. split_and!; [done|apply ascending_sorted|].
  apply NoDup_fmap_2; [apply _|apply NoDup_seq].
Qed.

Lemma ids_monotonic_witness :
  allocate 5 (NewClient ["./bin/stock-analyzer"]) = [1; 2; 3; 4; 5] /\
  StronglySorted Z.lt (allocate 5 (NewClient ["./bin/stock-analyzer"])) /\
  NoDup (allocate 5 (NewClient ["./bin/stock-analyzer"])).
Proof.
  apply (ids_monotonic ["./bin/stock-analyzer"] 5). unfold max_int. lia.
Defined.

(** The counter does wrap where Go's [int] ends: the id after
    [max_int] is the least [int]. *)
Lemma getNextID_wraps c :
  nextID c = max_int ->
  exists c', getNextID c = Returns max_int c' [] /\ nextID c' = - 2 ^ 63.
Proof.
  intros Hmax. unfold getNextID. rewrite Hmax. eexists. split; [reflexivity|].
  reflexivity.
Qed.

(** ** sendRequest *)

(** C10 (positional correlation).  On a connected client whose write
    succeeds, [sendRequest] returns the next envelope the decoder
    yields, whatever it is: no hypothesis relates its id to the id of
    the request that was sent. *)
Theorem response_taken_positionally c enc request response rest :
  encoder c = Some enc ->
  faults enc (calls enc) = None ->
  decoder c = Some (Decoded response :: rest) ->
  exists c' enc',
    sendRequest request c = Returns (inr response) c' [] /\
    decoder c' = Some rest /\
    encoder c' = Some enc' /\
    written enc' = written enc ++ [request].
Proof.
  intros Henc Hok Hdec. unfold sendRequest.
  rewrite Henc, (Encode_ok enc request Hok). cbn. rewrite Hdec.
  eexists _, _. split; [reflexivity|]. cbn. done.
Qed.

Lemma response_taken_positionally_witness :
  resp_ID refusal <> VNum 1 /\
  exists c' enc',
    sendRequest (request (VNum 1) "tools/list" PNil)
      (connectedTo stubborn [Decoded refusal]) = Returns (inr refusal) c' [] /\
    decoder c' = Some [] /\
    encoder c' = Some enc' /\
    written enc' = [] ++ [request (VNum 1) "tools/list" PNil].
Proof.
  split; [discriminate|].
  apply (response_taken_positionally (connectedTo stubborn [Decoded refusal])
           (NewEncoder okWriter) (request (VNum 1) "tools/list" PNil) refusal []);
    reflexivity.
Defined.

(** ** Initialize and Close *)

Lemma sendRequest_transport request c r c' tr :
  sendRequest request c = Returns r c' tr -> tr = [] /\ sameTransport c c'.
Proof.
  unfold sendRequest, sameTransport. intros Hsend.
  repeat case_match; simplify_eq; cbn; done.
Qed.

Section InitializeFacts.
Context `{Json}.

(** [Initialize] never touches the process or its pipes. *)
Lemma Initialize_transport c r c' tr :
  Initialize c = Returns r c' tr -> tr = [] /\ sameTransport c c'.
Proof.
  unfold Initialize, mbind, M_bind, mret, M_ret, getNextID, encodeDirect.
  intros Hinit.
  destruct (sendRequest _ _) as [sent c1 tr1| |tr1] eqn:Hsend; [|done|done].
  apply sendRequest_transport in Hsend as [-> Hsame].
  unfold sameTransport in *. cbn in Hsame.
  repeat case_match; simplify_eq; cbn; done.
Qed.

Lemma Initialize_fails c enc reply rest :
  encoder c = Some enc ->
  faults enc (calls enc) = None ->
  decoder c = Some (reply :: rest) ->
  handshakeFails reply ->
  exists err c', Initialize c = Returns (inl err) c' [].
Proof.
  intros Henc Hok Hdec Hfails.
  unfold Initialize, mbind, M_bind, mret, M_ret, getNextID, sendRequest.
  cbn. rewrite Henc, (Encode_ok enc _ Hok). cbn. rewrite Hdec.
  destruct reply as [response|msg]; [|by eexists _, _].
  destruct (resp_Error response) as [e|] eqn:He; [by eexists _, _|].
  destruct Hfails as [Hne|[err Herr]]; [done|].
  rewrite Herr. by eexists _, _.
Qed.

End InitializeFacts.

(** What [Close] does to a client with a command attached, when it
    returns. *)
Lemma Close_returns c cmd a c' tr :
  serverCmd c = Some cmd ->
  Close c = Returns a c' tr ->
  a = None /\ serverCmd c' = None /\
  stdin c' = Some PipeClosed /\ stdout c' = Some PipeClosed /\
  stderr c' = Some PipeClosed /\
  exists ending, tr = [EvClose Stdin; EvClose Stdout; EvClose Stderr; EvWait] ++ ending.
Proof.
  unfold Close. intros ->. intros Hclose.
  repeat case_match; simplify_eq; cbn; split_and!; try done; by eexists.
Qed.

(** [Close] returns unless the child neither exits once its pipes are
    closed nor is ever reclaimed after the kill. *)
Lemma Close_total c cmd :
  serverCmd c = Some cmd ->
  connected c ->
  (forall child, cmd_Process cmd = Some child ->
                 eof_exit child = None -> kill_exit child <> None) ->
  exists c' tr, Close c = Returns None c' tr.
Proof.
  unfold Close, waitReturns, doneAfterKill.
  intros -> (_ & [i ->] & [o ->] & [e ->]) Hkill.
  destruct (cmd_Process cmd) as [child|]; [|by eexists _, _].
  specialize (Hkill child eq_refl).
  destruct (eof_exit child) as [t|], (kill_exit child) as [r|];
    try (by destruct Hkill); try destruct (t <? closeTimeout)%N; by eexists _, _.
Qed.

Lemma Close_blocks c tr :
  Close c = Blocks tr ->
  exists cmd child,
    serverCmd c = Some cmd /\ cmd_Process cmd = Some child /\
    eof_exit child = None /\ kill_exit child = None.
Proof.
  unfold Close, waitReturns, doneAfterKill. intros Hblocks.
  destruct (serverCmd c) as [cmd|]; [|done].
  destruct (stdin c), (stdout c), (stderr c); try done.
  destruct (cmd_Process cmd) as [child|] eqn:Hchild; [|done].
  exists cmd, child.
  destruct (eof_exit child) as [t|], (kill_exit child) as [r|];
    repeat case_match; done.
Qed.

Section InitializeClaims.
Context `{Json}.

(** C7, as the client has it.  On a connected client whose request
    goes out, a reply that fails to decode, carries an error, or holds
    a result that does not unmarshal makes [Initialize] return an
    error, and [Initialize] leaves the transport as it found it: the
    command still attached, the three pipes in the state they were in,
    no system action taken.  The transport goes away only when the
    caller then calls [Close], which closes the pipes and detaches the
    command. *)
Theorem initialize_failure_keeps_transport c cmd enc reply rest :
  serverCmd c = Some cmd ->
  encoder c = Some enc ->
  faults enc (calls enc) = None ->
  decoder c = Some (reply :: rest) ->
  handshakeFails reply ->
  exists err c',
    Initialize c = Returns (inl err) c' [] /\
    serverCmd c' = Some cmd /\
    stdin c' = stdin c /\ stdout c' = stdout c /\ stderr c' = stderr c /\
    forall a c'' tr,
      Close c' = Returns a c'' tr ->
      serverCmd c'' = None /\
      stdin c'' = Some PipeClosed /\
      stdout c'' = Some PipeClosed /\
      stderr c'' = Some PipeClosed.
Proof.
  intros Hcmd Henc Hok Hdec Hfails.
  destruct (Initialize_fails c enc reply rest Henc Hok Hdec Hfails) as (err & c' & Hinit).
  destruct (Initialize_transport c _ c' _ Hinit) as (_ & Hc & Hin & Hout & Herr).
  exists err, c'. rewrite Hc, Hcmd. split_and!; try done.
  intros a c'' tr Hclose.
  assert (Hcmd' : serverCmd c' = Some cmd) by congruence.
  destruct (Close_returns c' cmd a c'' tr Hcmd' Hclose) as (_ & ? & ? & ? & ? & _).
  done.
Qed.

(** The one caller of [Initialize], [connectToMCPServer], is where the
    teardown happens: when the handshake fails it closes the client it
    made and leaves the table of clients as it was. *)
Lemma connectToMCPServer_closes mcpClients serverName path args env child reply rest :
  StdinPipe env = None -> StdoutPipe env = None -> StderrPipe env = None ->
  Start env = inr child ->
  stdin_faults env 0%nat = None ->
  stdout_stream env = reply :: rest ->
  handshakeFails reply ->
  (eof_exit child = None -> kill_exit child <> None) ->
  exists err c tr,
    connectToMCPServer mcpClients serverName (path :: args) env =
      Returns (Some err, mcpClients) c tr /\
    serverCmd c = None /\
    stdin c = Some PipeClosed /\ stdout c = Some PipeClosed /\
    stderr c = Some PipeClosed.
Proof.
  intros Hin Hout Herr Hstart Hfault Hstream Hfails Hkill.
  destruct (Connect_after_Start env (NewClient (path :: args)) path args child)
    as (c1 & Hconnect & Hc1 & Hi1 & Ho1 & He1 & Henc1 & Hdec1 & _); try done.
  rewrite Hstream in Hdec1.
  destruct (Initialize_fails c1 _ reply rest Henc1 Hfault Hdec1 Hfails)
    as (err & c2 & Hinit).
  destruct (Initialize_transport c1 _ c2 _ Hinit) as (_ & Hc2 & Hi2 & Ho2 & He2).
  rewrite Hc1 in Hc2.
  destruct (Close_total c2 _ Hc2) as (c3 & tr & Hclose).
  { unfold connected. rewrite Hc2, Hi2, Ho2, He2, Hi1, Ho1, He1. done. }
  { intros child' [= <-]. exact Hkill. }
  destruct (Close_returns c2 _ _ c3 tr Hc2 Hclose) as (_ & Hc3 & Hi3 & Ho3 & He3 & _).
  eexists _, c3, _. split; [|done].
  unfold connectToMCPServer, mbind, M_bind, mret, M_ret.
  rewrite Hconnect, Hinit, Hclose. reflexivity.
Qed.

End InitializeClaims.

Lemma initialize_failure_keeps_transport_witness :
  exists err c',
    Initialize (connectedTo stubborn [Decoded refusal]) = Returns (inl err) c' [] /\
    serverCmd c' = serverCmd (connectedTo stubborn [Decoded refusal]) /\
    stdin c' = Some PipeOpen /\ stdout c' = Some PipeOpen /\ stderr c' = Some PipeOpen /\
    forall a c'' tr,
      Close c' = Returns a c'' tr ->
      serverCmd c'' = None /\
      stdin c'' = Some PipeClosed /\
      stdout c'' = Some PipeClosed /\
      stderr c'' = Some PipeClosed.
Proof.
  apply (initialize_failure_keeps_transport
           (connectedTo stubborn [Decoded refusal])
           {| Path := "./bin/stock-analyzer"; Args := ["./bin/stock-analyzer"];
              cmd_Process := Some stubborn; cmd_ProcessState := None |}
           (NewEncoder okWriter) (Decoded refusal) []).
  - reflexivity.
  - reflexivity.
  - reflexivity.
  - reflexivity.
  - left. discriminate.
Defined.

(** C7 as stated fails: after the handshake was refused [Initialize]
    has returned its error and the client is still connected, the
    command attached and all three pipes open, with no system action
    taken. *)
Lemma initialize_leaves_transport_open :
  exists c',
    Initialize (connectedTo stubborn [Decoded refusal]) =
      Returns (inl "initialize error: Invalid params") c' [] /\
    serverCmd c' =
      Some {| Path := "./bin/stock-analyzer"; Args := ["./bin/stock-analyzer"];
              cmd_Process := Some stubborn; cmd_ProcessState := None |} /\
    stdin c' = Some PipeOpen /\ stdout c' = Some PipeOpen /\ stderr c' = Some PipeOpen.
Proof. eexists. split; [reflexivity|]. split_and!; reflexivity. Qed.

(** A child that ignores the closed pipes is killed at 5000 ms and
    reclaimed 20 ms later. *)
Example Close_stubborn :
  exists c',
    Close (connectedTo stubborn []) =
      Returns None c'
        [EvClose Stdin; EvClose Stdout; EvClose Stderr; EvWait;
         EvTimeout 5000; EvKill; EvDone 5020] /\
    serverCmd c' = None.
Proof. eexists. split; reflexivity. Qed.

(** A child that goes away when its input ends is never killed. *)
Example Close_graceful :
  exists c',
    Close (connectedTo shortLived []) =
      Returns None c'
        [EvClose Stdin; EvClose Stdout; EvClose Stderr; EvWait; EvDone 0] /\
    serverCmd c' = None.
Proof. eexists. split; reflexivity. Qed.

(** * Further properties of the server *)

Set Warnings "-clear-no-such-hyp".

Section ServerAnswers.
Context `{Json}.

Lemma route_initialize s encoder request :
  req_Method request = "initialize" ->
  route s encoder request = handleInitialize s encoder request.
Proof. intros Hm. unfold route. rewrite Hm. reflexivity. Qed.

Lemma route_list s encoder request :
  req_Method request = "tools/list" ->
  route s encoder request = handleListTools s encoder request.
Proof. intros Hm. unfold route. rewrite Hm. reflexivity. Qed.

Lemma route_call s encoder request :
  req_Method request = "tools/call" ->
  route s encoder request = handleCallTool s encoder request.
Proof. intros Hm. unfold route. rewrite Hm. reflexivity. Qed.

(** X4.  Once a handler is registered under a name, whatever was
    registered under that name before, a tools/call request for the name
    runs that handler on the request's arguments and is answered with
    its outcome: the result it returned, without error, or the error
    -32603 with its message. *)
Theorem registered_tool_called s name description inputSchema handler
    encoder request callReq :
  req_Method request = "tools/call" ->
  callToolParams request = inr callReq ->
  ctr_Name callReq = name ->
  route (RegisterTool s name description inputSchema handler) encoder request =
  Encode encoder (toolAnswer (req_ID request) (handler (ctr_Arguments callReq))).
Proof.
  intros Hm Hparams Hname. rewrite route_call by done.
  unfold handleCallTool. rewrite Hparams, Hname. cbn [RegisterTool s_tools].
  rewrite lookup_insert_eq.
  by destruct (handler (ctr_Arguments callReq)) as [result [msg|]].
Qed.

(** X5.  Registering a tool changes the answers to tools/list and to
    calls of that tool only: every other request is answered as it was
    before the registration. *)
Theorem registration_leaves_others s name description inputSchema handler
    encoder request :
  req_Method request <> "tools/list" ->
  (req_Method request = "tools/call" ->
   forall callReq, callToolParams request = inr callReq -> ctr_Name callReq <> name) ->
  route (RegisterTool s name description inputSchema handler) encoder request =
  route s encoder request.
Proof.
  intros Hlist Hother. unfold route. repeat case_decide; try done.
  unfold handleCallTool.
  destruct (callToolParams request) as [msg|callReq] eqn:Hparams; [done|].
  simpl. rewrite lookup_insert_ne; [done|].
  intros Heq. by apply (Hother ltac:(done) callReq).
Qed.

End ServerAnswers.

(** ** The registry, built up by registrations *)

Lemma registerAll_tools regs : forall s,
  dom (s_tools (registerAll s regs)) =
  list_to_set (reg_name <$> regs) ∪ dom (s_tools s).
Proof.
  induction regs as [|r regs IH]; intros s; simpl.
  - set_solver.
  - rewrite IH, RegisterTool_names. set_solver.
Qed.

Lemma registerAll_identity regs : forall s,
  s_name (registerAll s regs) = s_name s /\
  s_version (registerAll s regs) = s_version s /\
  s_capabilities (registerAll s regs) = s_capabilities s.
Proof.
  induction regs as [|r regs IH]; intros s; simpl; [done|].
  destruct (IH (RegisterTool s (reg_name r) (reg_description r) (reg_schema r)
                  (reg_handler r))) as (-> & -> & ->).
  done.
Qed.

Section RegistryAnswers.
Context `{Json}.

(** X6.  On a server set up by [NewServer] and any sequence of
    registrations, a tools/list request whose answer is written lists
    exactly the names that were registered, each of them once however
    often it was registered, under the request's id. *)
Theorem listed_names_are_registered name version regs encoder request encoder' :
  req_Method request = "tools/list" ->
  route (registerAll (NewServer name version) regs) encoder request = (encoder', None) ->
  exists listed,
    written encoder' = written encoder ++
      [{| resp_JSONRPC := "2.0"; resp_ID := req_ID request;
          resp_Result := RListTools {| ltr_Tools := listed |};
          resp_Error := None |}] /\
    NoDup (Name <$> listed) /\
    forall n, n ∈ (Name <$> listed) <-> n ∈ (reg_name <$> regs).
Proof.
  intros Hm Hroute. rewrite route_list in Hroute by done.
  destruct (handleListTools_names _ _ _ _ Hroute) as (listed & Hw & Hnodup & Hnames).
  exists listed. split_and!; [done|done|].
  intros n. rewrite Hnames, registerAll_tools. simpl. set_solver.
Qed.

(** X10.  Whatever was registered and whatever protocol version,
    capabilities and client info the request carries, an initialize
    request whose params unmarshal is answered with the protocol version
    2024-11-05, the name and version the server was created with, and
    the capabilities tools (listChanged false) and logging. *)
Theorem initialize_answer name version regs encoder request initReq :
  req_Method request = "initialize" ->
  initializeParams request = inr initReq ->
  route (registerAll (NewServer name version) regs) encoder request =
  Encode encoder
    {| resp_JSONRPC := "2.0";
       resp_ID := req_ID request;
       resp_Result := RInitialize
         {| ires_ProtocolVersion := "2024-11-05";
            ires_Capabilities :=
              {| Logging := Some Build_LoggingCapability;
                 Prompts := None; Resources := None;
                 Tools := Some {| tc_ListChanged := false |};
                 Experimental := None |};
            ires_ServerInfo := {| si_Name := name; si_Version := version |} |};
       resp_Error := None |}.
Proof.
  intros Hm Hparams. rewrite route_initialize by done.
  unfold handleInitialize. rewrite Hparams.
  destruct (registerAll_identity regs (NewServer name version)) as (-> & -> & ->).
  reflexivity.
Qed.

(** ** The shape of what the loop writes *)

Lemma serverCodes_elem code :
  code = -32700 \/ code = -32601 \/ code = -32602 \/ code = -32603 ->
  code ∈ serverCodes.
Proof. unfold serverCodes. intros [->|[->|[->| ->]]]; set_solver. Qed.

Lemma errorResponse_wellFormed id code message data :
  code ∈ serverCodes -> wellFormed (errorResponse id code message data).
Proof. intros Hcode. split; [done|]. simpl. done. Qed.

(** Each request is either passed over in silence or answered by one
    call of [Encode] on a well-formed envelope. *)
Lemma route_cases s encoder request :
  route s encoder request = (encoder, None) \/
  exists response,
    route s encoder request = Encode encoder response /\ wellFormed response.
Proof.
  unfold route. repeat case_decide.
  - right. unfold handleInitialize. destruct (initializeParams request).
    + eexists. split; [apply sendError_Encode|].
      apply errorResponse_wellFormed, serverCodes_elem. tauto.
    + eexists. split; [reflexivity|]. split; done.
  - right. eexists. split; [reflexivity|]. split; done.
  - right. unfold handleCallTool.
    destruct (callToolParams request) as [msg|callReq].
    { eexists. split; [apply sendError_Encode|].
      apply errorResponse_wellFormed, serverCodes_elem. tauto. }
    destruct (s_tools s !! ctr_Name callReq) as [handler|].
    + destruct (handler (ctr_Arguments callReq)) as [result [msg|]].
      * eexists. split; [apply sendError_Encode|].
        apply errorResponse_wellFormed, serverCodes_elem. tauto.
      * eexists. split; [reflexivity|]. split; done.
    + eexists. split; [apply sendError_Encode|].
      apply errorResponse_wellFormed, serverCodes_elem. tauto.
  - by left.
  - right. eexists. split; [apply sendError_Encode|].
    apply errorResponse_wellFormed, serverCodes_elem. tauto.
Qed.

(** X7.  Whatever the stream holds and whatever the writer does, every
    envelope a run of the loop writes has version 2.0 and carries either
    an error with one of the codes -32700, -32601, -32602, -32603 and no
    result, or no error and the result field set, never both and never
    neither; what was written before the run is left in place. *)
Theorem responses_well_formed s input encoder encoder' err :
  HandleRequest s input encoder = (encoder', err) ->
  exists responses,
    written encoder' = written encoder ++ responses /\
    Forall wellFormed responses.
Proof.
  revert encoder. induction input as [|[request|msg] rest IH]; intros encoder; simpl.
  - intros [= <- <-]. exists []. by rewrite app_nil_r.
  - destruct (route_cases s encoder request) as [Hsilent|(response & Hroute & Hwf)].
    + rewrite Hsilent. apply IH.
    + rewrite Hroute. destruct (Encode encoder response) as [e1 [msg|]] eqn:Henc.
      * intros [= <- <-].
        apply Encode_written in Henc as [[? _]|[_ Hw]]; [done|].
        exists []. by rewrite app_nil_r.
      * intros Hrun. apply Encode_written in Henc as [[_ Hw]|[? _]]; [|done].
        destruct (IH e1 Hrun) as (responses & Hout & Hall).
        exists (response :: responses). split; [|by constructor].
        rewrite Hout, Hw. by rewrite <- app_assoc.
  - rewrite sendError_Encode. intros Henc.
    apply Encode_written in Henc as [[_ Hw]|[_ Hw]].
    + eexists [_]. split; [exact Hw|]. constructor; [|constructor].
      apply errorResponse_wellFormed, serverCodes_elem. tauto.
    + exists []. by rewrite app_nil_r.
Qed.

(** What one call of [Encode] does to the encoder. *)
Lemma Encode_calls {A} (e e' : Encoder A) (v : A) err :
  Encode e v = (e', err) ->
  faults e' = faults e /\ calls e' = S (calls e) /\ err = faults e (calls e) /\
  length (written e') =
    (length (written e) + match err with Some _ => 0 | None => 1 end)%nat.
Proof.
  unfold Encode. destruct (faults e (calls e)) eqn:Hf; intros [= <- <-]; simpl;
    rewrite ?length_app; simpl; split_and!; try done; lia.
Qed.

(** X8.  The loop returns an error only when a write failed, and the
    error is the writer's: the last write the run attempted failed with
    it, every write it attempted before succeeded, and nothing was
    written after the failure. *)
Theorem write_failure_ends_loop s input encoder encoder' err :
  HandleRequest s input encoder = (encoder', Some err) ->
  faults encoder' = faults encoder /\
  (calls encoder < calls encoder')%nat /\
  faults encoder (pred (calls encoder')) = Some err /\
  (forall n, (calls encoder <= n < pred (calls encoder'))%nat ->
             faults encoder n = None) /\
  length (written encoder') =
    (length (written encoder) + (pred (calls encoder') - calls encoder))%nat.
Proof.
  revert encoder. induction input as [|[request|msg] rest IH]; intros encoder; simpl.
  - done.
  - destruct (route_cases s encoder request) as [Hsilent|(response & Hroute & _)].
    + rewrite Hsilent. apply IH.
    + rewrite Hroute. destruct (Encode encoder response) as [e1 [msg|]] eqn:Henc.
      * intros [= <- <-].
        apply Encode_calls in Henc as (Hf & Hc & Herr & Hlen).
        rewrite Hc. simpl. split_and!; [done|lia|done|intros; lia|lia].
      * intros Hrun.
        apply Encode_calls in Henc as (Hf & Hc & Herr & Hlen).
        destruct (IH e1 Hrun) as (Hf' & Hc' & Hlast & Hbefore & Hlen').
        rewrite Hf in *. rewrite Hc in *. simpl in Hlen.
        split_and!; [done|lia|done| |lia].
        intros n Hn. destruct (decide (n = calls encoder)) as [->|Hne]; [done|].
        apply Hbefore. lia.
  - rewrite sendError_Encode. intros Henc.
    apply Encode_calls in Henc as (Hf & Hc & Herr & Hlen).
    rewrite Hc. simpl. split_and!; [done|lia|done|intros; lia|lia].
Qed.

(** X9.  A stream can be handled piece by piece: when the loop has run
    through a first part that holds no decode failure and returned nil,
    running it over that part followed by more input is running it over
    the additional input with the encoder the first run left. *)
Theorem HandleRequest_app s first more encoder encoder1 :
  streamFailure first = None ->
  HandleRequest s first encoder = (encoder1, None) ->
  HandleRequest s (first ++ more) encoder = HandleRequest s more encoder1.
Proof.
  revert encoder. induction first as [|[request|msg] rest IH]; intros encoder; simpl.
  - by intros _ [= <-].
  - intros Hclean. destruct (route s encoder request) as [e1 [err|]]; [done|].
    by apply IH.
  - done.
Qed.

End RegistryAnswers.

(** ** The further properties of the server, on concrete inputs *)

Lemma registered_tool_called_witness :
  route
    (RegisterTool exampleServer "get_stock_price" "Replaced" VNil
       (fun _ => (None, Some "market closed")))
    (NewEncoder okWriter) goodCall =
  Encode (NewEncoder okWriter)
    (errorResponse (VStr "a-1") (-32603) "Tool execution error" "market closed").
Proof.
  apply (registered_tool_called exampleServer "get_stock_price" "Replaced" VNil
           (fun _ => (None, Some "market closed")) (NewEncoder okWriter) goodCall
           {| ctr_Name := "get_stock_price";
              ctr_Arguments := list_to_map [("symbol", VStr "AAPL")] |});
    reflexivity.
Defined.

Lemma registration_leaves_others_witness :
  route
    (RegisterTool exampleServer "export_analysis"
       "Export analysis results to CSV or JSON format" VNil priceHandler)
    (NewEncoder okWriter) goodCall =
  route exampleServer (NewEncoder okWriter) goodCall.
Proof.
  apply (registration_leaves_others exampleServer "export_analysis"
           "Export analysis results to CSV or JSON format" VNil priceHandler
           (NewEncoder okWriter) goodCall).
  - discriminate.
  - intros _ callReq Hparams. injection Hparams as <-. discriminate.
Defined.

Lemma listed_names_are_registered_witness :
  exists listed,
    written (route (registerAll (NewServer "Stock Analyzer MCP Server" "2.0.0")
                      exampleRegistrations)
               (NewEncoder okWriter) (request (VNum 2) "tools/list" PNil)).1 =
      [] ++ [{| resp_JSONRPC := "2.0"; resp_ID := VNum 2;
                resp_Result := RListTools {| ltr_Tools := listed |};
                resp_Error := None |}] /\
    NoDup (Name <$> listed) /\
    forall n, n ∈ (Name <$> listed) <-> n ∈ (reg_name <$> exampleRegistrations).
Proof.
  apply (listed_names_are_registered "Stock Analyzer MCP Server" "2.0.0"
           exampleRegistrations (NewEncoder okWriter)
           (request (VNum 2) "tools/list" PNil)).
  - reflexivity.
  - vm_compute. reflexivity.
Defined.

Lemma initialize_answer_witness :
  (route (registerAll (NewServer "Stock Analyzer MCP Server" "2.0.0")
            exampleRegistrations)
     (NewEncoder okWriter)
     (request (VNum 1) "initialize"
        (PRaw (VObj [("protocolVersion", VStr "1999-01-01")])))).2 = None.
Proof.
  rewrite (initialize_answer "Stock Analyzer MCP Server" "2.0.0"
             exampleRegistrations (NewEncoder okWriter)
             (request (VNum 1) "initialize"
                (PRaw (VObj [("protocolVersion", VStr "1999-01-01")])))
             {| ireq_ProtocolVersion := "1999-01-01";
                ireq_Capabilities :=
                  {| cc_Experimental := None; cc_Sampling := None |};
                ireq_ClientInfo := {| ci_Name := ""; ci_Version := "" |} |});
    reflexivity.
Defined.

Lemma responses_well_formed_witness :
  exists responses,
    written (HandleRequest exampleServer
               (exampleInput ++ [Decoded malformedCall; DecodeFail "unexpected EOF"])
               (NewEncoder (failingAt 9))).1 = [] ++ responses /\
    Forall wellFormed responses.
Proof.
  apply (responses_well_formed exampleServer
           (exampleInput ++ [Decoded malformedCall; DecodeFail "unexpected EOF"])
           (NewEncoder (failingAt 9)) _
           (HandleRequest exampleServer
              (exampleInput ++ [Decoded malformedCall; DecodeFail "unexpected EOF"])
              (NewEncoder (failingAt 9))).2).
  vm_compute. reflexivity.
Defined.

Lemma write_failure_ends_loop_witness :
  faults (HandleRequest exampleServer exampleInput (NewEncoder (failingAt 2))).1 =
    failingAt 2 /\
  (0 < calls (HandleRequest exampleServer exampleInput
                (NewEncoder (failingAt 2))).1)%nat /\
  failingAt 2
    (pred (calls (HandleRequest exampleServer exampleInput
                    (NewEncoder (failingAt 2))).1)) =
    Some "write |1: broken pipe" /\
  (forall n,
      (0 <= n < pred (calls (HandleRequest exampleServer exampleInput
                               (NewEncoder (failingAt 2))).1))%nat ->
      failingAt 2 n = None) /\
  length (written (HandleRequest exampleServer exampleInput
                     (NewEncoder (failingAt 2))).1) =
    (0 + (pred (calls (HandleRequest exampleServer exampleInput
                         (NewEncoder (failingAt 2))).1) - 0))%nat.
Proof.
  apply (write_failure_ends_loop exampleServer exampleInput
           (NewEncoder (failingAt 2))).
  vm_compute. reflexivity.
Defined.

Lemma HandleRequest_app_witness :
  HandleRequest exampleServer (exampleInput ++ [Decoded malformedCall])
    (NewEncoder okWriter) =
  HandleRequest exampleServer [Decoded malformedCall]
    (HandleRequest exampleServer exampleInput (NewEncoder okWriter)).1.
Proof.
  apply (HandleRequest_app exampleServer exampleInput [Decoded malformedCall]
           (NewEncoder okWriter)).
  - reflexivity.
  - vm_compute. reflexivity.
Defined.

(** * Further properties of the client *)

(** ** One round trip *)

Lemma sendRequest_reply c enc request response rest :
  encoder c = Some enc ->
  faults enc (calls enc) = None ->
  decoder c = Some (Decoded response :: rest) ->
  sendRequest request c = Returns (inr response) (afterReply c enc request rest) [].
Proof.
  intros Henc Hok Hdec. unfold sendRequest.
  rewrite Henc, (Encode_ok enc request Hok). cbn. by rewrite Hdec.
Qed.

Lemma sendRequest_nextID request c r c' tr :
  sendRequest request c = Returns r c' tr -> nextID c' = nextID c.
Proof.
  unfold sendRequest. intros Hsend.
  repeat case_match; simplify_eq; cbn; done.
Qed.

(** X21.  The ways [sendRequest] fails on a client that has an encoder.
    When the write fails the error is "failed to send request: " and the
    writer's message, and the decoder is not touched.  When the write
    succeeds and the stream has ended the error is "failed to decode
    response: EOF"; when the next value does not decode, it is "failed
    to decode response: " and the decoder's message, and the decoder has
    moved past it.  In both cases the request stays written. *)
Theorem sendRequest_failures c enc request :
  encoder c = Some enc ->
  (forall msg,
      faults enc (calls enc) = Some msg ->
      sendRequest request c =
        Returns (inl ("failed to send request: " +:+ msg))
          (set_encoder
             (Some (mkEncoder (written enc) (S (calls enc)) (faults enc))) c) []) /\
  (faults enc (calls enc) = None ->
   decoder c = Some [] ->
   sendRequest request c =
     Returns (inl "failed to decode response: EOF")
       (set_encoder
          (Some (mkEncoder (written enc ++ [request]) (S (calls enc)) (faults enc)))
          c) []) /\
  (forall msg rest,
      faults enc (calls enc) = None ->
      decoder c = Some (DecodeFail msg :: rest) ->
      sendRequest request c =
        Returns (inl ("failed to decode response: " +:+ msg))
          (afterReply c enc request rest) []).
Proof.
  intros Henc. split_and!.
  - intros msg Hko. unfold sendRequest.
    by rewrite Henc, (Encode_fail enc request msg Hko).
  - intros Hok Hdec. unfold sendRequest.
    rewrite Henc, (Encode_ok enc request Hok). cbn. by rewrite Hdec.
  - intros msg rest Hok Hdec. unfold sendRequest.
    rewrite Henc, (Encode_ok enc request Hok). cbn. by rewrite Hdec.
Qed.

Section ClientCalls.
Context `{Json}.

(** X11.  Before [Connect] every call fails with "client not connected"
    and writes nothing, but it has taken an id all the same: the counter
    has moved on by one. *)
Theorem calls_before_connect c :
  encoder c = None ->
  Initialize c = Returns (inl "client not connected") (idSpent c) [] /\
  ListTools c = Returns (inl "client not connected") (idSpent c) [] /\
  forall name arguments,
    CallTool name arguments c = Returns (inl "client not connected") (idSpent c) [].
Proof.
  intros Henc.
  unfold Initialize, ListTools, CallTool, mbind, M_bind, mret, M_ret,
    getNextID, sendRequest, idSpent.
  cbn. rewrite Henc. done.
Qed.

(** X22.  Whenever one of [Initialize], [ListTools], [CallTool]
    returns, with a result or with an error, it has taken exactly one
    id, has left the command and the pipes alone and has taken no system
    action. *)
Theorem calls_consume_one_id c :
  (forall r c' tr,
      Initialize c = Returns r c' tr ->
      nextID c' = wrap_int (nextID c + 1) /\ sameTransport c c' /\ tr = []) /\
  (forall r c' tr,
      ListTools c = Returns r c' tr ->
      nextID c' = wrap_int (nextID c + 1) /\ sameTransport c c' /\ tr = []) /\
  (forall name arguments r c' tr,
      CallTool name arguments c = Returns r c' tr ->
      nextID c' = wrap_int (nextID c + 1) /\ sameTransport c c' /\ tr = []).
Proof.
  split_and!.
  - intros r c' tr Hcall.
    destruct (Initialize_transport c r c' tr Hcall) as [-> Hsame].
    split_and!; [|done|done].
    revert Hcall.
    unfold Initialize, mbind, M_bind, mret, M_ret, getNextID, encodeDirect.
    destruct (sendRequest _ _) as [sent c1 tr1| |tr1] eqn:Hsend; [|done|done].
    apply sendRequest_nextID in Hsend. cbn in Hsend. intros Hcall.
    repeat case_match; simplify_eq; cbn; done.
  - intros r c' tr.
    unfold ListTools, mbind, M_bind, mret, M_ret, getNextID.
    destruct (sendRequest _ _) as [sent c1 tr1| |tr1] eqn:Hsend; [|done|done].
    pose proof (sendRequest_nextID _ _ _ _ _ Hsend) as Hid.
    apply sendRequest_transport in Hsend as [-> Hsame].
    cbn in Hid, Hsame. intros Hcall.
    repeat case_match; simplify_eq; cbn; done.
  - intros name arguments r c' tr.
    unfold CallTool, mbind, M_bind, mret, M_ret, getNextID.
    destruct (sendRequest _ _) as [sent c1 tr1| |tr1] eqn:Hsend; [|done|done].
    pose proof (sendRequest_nextID _ _ _ _ _ Hsend) as Hid.
    apply sendRequest_transport in Hsend as [-> Hsame].
    cbn in Hid, Hsame. intros Hcall.
    repeat case_match; simplify_eq; cbn; done.
Qed.

(** X17.  When both writes succeed and the reply carries no error and a
    result that unmarshals, [Initialize] returns that result.  It has
    then written exactly two envelopes, the initialize request under the
    id it took and the notifications/initialized notice without an id,
    and has read exactly one. *)
Theorem Initialize_success c enc response rest initResponse :
  encoder c = Some enc ->
  faults enc (calls enc) = None ->
  faults enc (S (calls enc)) = None ->
  decoder c = Some (Decoded response :: rest) ->
  resp_Error response = None ->
  remarshalInitializeResponse (resp_Result response) = inr initResponse ->
  exists c',
    Initialize c = Returns (inr initResponse) c' [] /\
    encoder c' =
      Some (mkEncoder
              (written enc ++ [initializeRequest (nextID c); initializedNotification])
              (S (S (calls enc))) (faults enc)) /\
    decoder c' = Some rest /\
    nextID c' = wrap_int (nextID c + 1).
Proof.
  intros Henc Hok Hok' Hdec Herr Hres.
  unfold Initialize, mbind, M_bind, mret, M_ret, getNextID, encodeDirect.
  rewrite (sendRequest_reply _ enc _ response rest) by done.
  rewrite Herr, Hres. cbn. unfold Encode. cbn. rewrite Hok'. cbn.
  eexists. split; [reflexivity|]. cbn. split_and!; [|done|done].
  by rewrite <- app_assoc.
Qed.

(** X18.  When the handshake reply is good but the notice cannot be
    written, [Initialize] fails with "failed to send initialized
    notification: " and the writer's message, although the server has
    answered the handshake; the request stays written and the reply
    stays consumed. *)
Theorem Initialize_notification_failure c enc response rest initResponse msg :
  encoder c = Some enc ->
  faults enc (calls enc) = None ->
  faults enc (S (calls enc)) = Some msg ->
  decoder c = Some (Decoded response :: rest) ->
  resp_Error response = None ->
  remarshalInitializeResponse (resp_Result response) = inr initResponse ->
  exists c',
    Initialize c =
      Returns (inl ("failed to send initialized notification: " +:+ msg)) c' [] /\
    encoder c' =
      Some (mkEncoder (written enc ++ [initializeRequest (nextID c)])
              (S (S (calls enc))) (faults enc)) /\
    decoder c' = Some rest.
Proof.
  intros Henc Hok Hko Hdec Herr Hres.
  unfold Initialize, mbind, M_bind, mret, M_ret, getNextID, encodeDirect.
  rewrite (sendRequest_reply _ enc _ response rest) by done.
  rewrite Herr, Hres. cbn. unfold Encode. cbn. rewrite Hko. cbn.
  eexists. split; [reflexivity|]. cbn. done.
Qed.

(** X19.  [CallTool] sends one tools/call request, under the id it took
    and with the name and arguments it was given, and returns the result
    of a reply without error as it unmarshals, whatever its isError flag
    says: a tool that reports failure in its result is not an error of
    the call. *)
Theorem CallTool_result c enc name arguments response rest callResponse :
  encoder c = Some enc ->
  faults enc (calls enc) = None ->
  decoder c = Some (Decoded response :: rest) ->
  resp_Error response = None ->
  remarshalCallToolResponse (resp_Result response) = inr callResponse ->
  exists c',
    CallTool name arguments c = Returns (inr callResponse) c' [] /\
    encoder c' =
      Some (mkEncoder
              (written enc ++
                 [{| req_JSONRPC := "2.0"; req_ID := VNum (nextID c);
                     req_Method := "tools/call";
                     req_Params := PCallTool
                       {| ctr_Name := name; ctr_Arguments := arguments |} |}])
              (S (calls enc)) (faults enc)) /\
    decoder c' = Some rest.
Proof.
  intros Henc Hok Hdec Herr Hres.
  unfold CallTool, mbind, M_bind, mret, M_ret, getNextID.
  rewrite (sendRequest_reply _ enc _ response rest) by done.
  rewrite Herr, Hres. cbn. eexists. split; [reflexivity|]. done.
Qed.

(** X20.  A reply that carries an error makes [ListTools] and [CallTool]
    fail with the error's message alone, behind "list tools error: " or
    "call tool error: ": its code and data do not reach the caller.  The
    client stays connected and its decoder stands at the next reply. *)
Theorem remote_error_surfaced c enc response rest e :
  encoder c = Some enc ->
  faults enc (calls enc) = None ->
  decoder c = Some (Decoded response :: rest) ->
  resp_Error response = Some e ->
  (exists c',
      ListTools c = Returns (inl ("list tools error: " +:+ Message e)) c' [] /\
      sameTransport c c' /\ decoder c' = Some rest) /\
  (forall name arguments,
      exists c',
        CallTool name arguments c =
          Returns (inl ("call tool error: " +:+ Message e)) c' [] /\
        sameTransport c c' /\ decoder c' = Some rest).
Proof.
  intros Henc Hok Hdec Herr. split; [|intros name arguments].
  - unfold ListTools, mbind, M_bind, mret, M_ret, getNextID.
    rewrite (sendRequest_reply _ enc _ response rest) by done.
    rewrite Herr. cbn. eexists. split; [reflexivity|]. done.
  - unfold CallTool, mbind, M_bind, mret, M_ret, getNextID.
    rewrite (sendRequest_reply _ enc _ response rest) by done.
    rewrite Herr. cbn. eexists. split; [reflexivity|]. done.
Qed.

End ClientCalls.

(** ** Connect and Close *)

(** X12.  A [Connect] that fails on a client without a command leaves
    the client exactly as it was, free to try again, and has closed
    every pipe it had created before the failure. *)
Theorem Connect_failure_cleanup env c err c' tr :
  serverCmd c = None ->
  Connect env c = Returns (Some err) c' tr ->
  c' = c /\ forall pipe, pipe ∈ pipesMade env -> EvClose pipe ∈ tr.
Proof.
  unfold Connect, pipesMade, closeAll. intros -> Hconnect.
  repeat case_match; simplify_eq; (split; [done|]); intros pipe Hpipe; set_solver.
Qed.

(** X13.  After a successful [Connect] a second one, whatever the
    system would answer, is refused with "client already connected": it
    creates nothing and changes nothing. *)
Theorem Connect_twice env env' c c1 tr :
  Connect env c = Returns None c1 tr ->
  Connect env' c1 = Returns (Some "client already connected") c1 [].
Proof.
  intros Hconnect. apply Connect_connected in Hconnect as ([cmd Hcmd] & _).
  unfold Connect. by rewrite Hcmd.
Qed.

(** X14.  A client whose command is empty, which [NewClient] accepts,
    cannot be connected: [Connect] indexes the first word of the command
    and panics, before any pipe is created and whatever the system would
    answer. *)
Theorem Connect_empty_command env c :
  serverCmd c = None ->
  serverCommand c = [] ->
  Connect env c = Panics.
Proof. intros Hcmd Hcommand. unfold Connect. by rewrite Hcmd, Hcommand. Qed.

(** What [Close] leaves alone. *)
Lemma Close_keeps c a c' tr :
  Close c = Returns a c' tr ->
  serverCmd c' = None /\ serverCommand c' = serverCommand c /\
  encoder c' = encoder c /\ decoder c' = decoder c /\ nextID c' = nextID c.
Proof.
  unfold Close. intros Hclose.
  repeat case_match; simplify_eq; cbn; done.
Qed.

(** X15.  [Close] can be repeated: once it has returned, and on a client
    that was never connected, it returns nil at once, takes no system
    action and changes nothing. *)
Theorem Close_idempotent c a c' tr :
  Close c = Returns a c' tr ->
  a = None /\ Close c' = Returns None c' [].
Proof.
  intros Hclose. split.
  - unfold Close in Hclose. repeat case_match; simplify_eq; done.
  - apply Close_keeps in Hclose as (Hcmd & _). unfold Close. by rewrite Hcmd.
Qed.

(** X16.  A closed client can be connected again, and the new session
    goes on with the ids of the old one: [Close] and [Connect] replace
    the command, the pipes, the encoder and the decoder but leave the
    counter where it was. *)
Theorem reconnect_keeps_counter env c a c1 tr path args child :
  Close c = Returns a c1 tr ->
  serverCommand c = path :: args ->
  StdinPipe env = None -> StdoutPipe env = None -> StderrPipe env = None ->
  Start env = inr child ->
  exists c2,
    Connect env c1 = Returns None c2 [EvStart; EvSleep connectGrace] /\
    connected c2 /\
    nextID c2 = nextID c /\
    encoder c2 = Some (NewEncoder (stdin_faults env)) /\
    decoder c2 = Some (stdout_stream env).
Proof.
  intros Hclose Hcommand Hin Hout Herr Hstart.
  apply Close_keeps in Hclose as (Hcmd & Hsame & _ & _ & Hid).
  rewrite <- Hsame in Hcommand.
  destruct (Connect_after_Start env c1 path args child Hcmd Hcommand Hin Hout Herr Hstart)
    as (c2 & Hconnect & _ & _ & _ & _ & Henc & Hdec & Hid2).
  exists c2. split_and!; [done|by eapply Connect_connected|congruence|done|done].
Qed.

(** X23.  [Close] does not take the client back to the state before
    [Connect]: the encoder stays in place, so a request sent after
    [Close] is not refused with "client not connected" but goes to the
    writer, whose failure is what the caller gets. *)
Theorem send_after_Close c a c' tr enc request msg :
  Close c = Returns a c' tr ->
  encoder c = Some enc ->
  faults enc (calls enc) = Some msg ->
  sendRequest request c' =
    Returns (inl ("failed to send request: " +:+ msg))
      (set_encoder (Some (mkEncoder (written enc) (S (calls enc)) (faults enc))) c')
      [].
Proof.
  intros Hclose Henc Hko. apply Close_keeps in Hclose as (_ & _ & Henc' & _).
  rewrite Henc in Henc'. unfold sendRequest.
  by rewrite Henc', (Encode_fail enc request msg Hko).
Qed.

(** * Properties of the host's table of clients *)

Lemma Connect_failure_same env c err c' tr :
  Connect env c = Returns (Some err) c' tr -> c' = c.
Proof.
  unfold Connect. intros Hconnect. repeat case_match; simplify_eq; done.
Qed.

Lemma andThen_returns tr rest mcpClients tr' :
  andThen tr rest = HostReturns mcpClients tr' ->
  exists tr2, rest = HostReturns mcpClients tr2 /\ tr' = tr ++ tr2.
Proof. destruct rest; simpl; intros [= <- <-] || done. by eexists. Qed.

(** X25.  [disconnectFromMCPServer] on a name that is not in the table
    does nothing at all.  On a name that is, once [Close] has returned,
    the name is gone from the table and every other entry is as it
    was. *)
Theorem disconnect_removes mcpClients serverName mcpClients' tr :
  disconnectFromMCPServer mcpClients serverName = HostReturns mcpClients' tr ->
  mcpClients' !! serverName = None /\
  (forall other, other <> serverName -> mcpClients' !! other = mcpClients !! other) /\
  (mcpClients !! serverName = None -> mcpClients' = mcpClients /\ tr = []).
Proof.
  unfold disconnectFromMCPServer.
  destruct (mcpClients !! serverName) as [client|] eqn:Hclient.
  - destruct (Close client) as [a c' tr0| |tr0]; [|done|done].
    intros [= <- <-]. split_and!; [apply lookup_delete_eq| |done].
    intros other Hother. by apply lookup_delete_ne.
  - intros [= <- <-]. done.
Qed.

Lemma closeEach_spec entries : forall mcpClients mcpClients' tr,
  NoDup entries.*1 ->
  closeEach entries mcpClients = HostReturns mcpClients' tr ->
  (forall name, name ∉ entries.*1 -> mcpClients' !! name = mcpClients !! name) /\
  (forall name c, (name, c) ∈ entries ->
     exists a c' tr0, Close c = Returns a c' tr0 /\ mcpClients' !! name = Some c').
Proof.
  induction entries as [|[name client] rest IH]; intros acc acc' tr Hnodup; simpl.
  - intros [= <- <-]. split; [done|]. intros name c Hin. by apply elem_of_nil in Hin.
  - apply NoDup_cons in Hnodup as [Hfresh Hnodup].
    destruct (Close client) as [a client' tr0| |tr0] eqn:Hclose; [|done|done].
    intros Hrest. apply andThen_returns in Hrest as (tr2 & Hrest & _).
    destruct (IH _ _ _ Hnodup Hrest) as [Hout Hin]. split.
    + intros n Hn. apply not_elem_of_cons in Hn as [Hne Hn].
      rewrite Hout by done. by rewrite lookup_insert_ne.
    + intros n c Hc. apply elem_of_cons in Hc as [[= -> ->]|Hc].
      * exists a, client', tr0. split; [done|].
        rewrite Hout by done. apply lookup_insert_eq.
      * by apply Hin.
Qed.

Lemma closeEach_total entries :
  (forall name c, (name, c) ∈ entries -> exists a c' tr, Close c = Returns a c' tr) ->
  forall mcpClients, exists mcpClients' tr,
    closeEach entries mcpClients = HostReturns mcpClients' tr.
Proof.
  induction entries as [|[name client] rest IH]; intros Hall acc; simpl.
  - by eexists _, _.
  - destruct (Hall name client) as (a & c' & tr & ->); [by left|].
    destruct (IH (fun n c Hin => Hall n c (list_elem_of_further _ _ _ Hin))
                 (<[name := c']> acc)) as (acc' & tr' & ->).
    by eexists _, _.
Qed.

(** X26.  When [Close] returns on every client of the table, [cleanup]
    returns, and then the table has the same names as before and every
    client in it is the closed state of the one that was there: no
    command attached.  The entries themselves are not removed. *)
Theorem cleanup_closes_all mcpClients :
  (forall name c, mcpClients !! name = Some c ->
                  exists a c' tr, Close c = Returns a c' tr) ->
  exists mcpClients' tr,
    cleanup mcpClients = HostReturns mcpClients' tr /\
    dom mcpClients' = dom mcpClients /\
    forall name c',
      mcpClients' !! name = Some c' ->
      serverCmd c' = None /\
      exists c a tr0, mcpClients !! name = Some c /\ Close c = Returns a c' tr0.
Proof.
  intros Hall. unfold cleanup.
  destruct (closeEach_total (map_to_list mcpClients)) with (mcpClients := mcpClients)
    as (acc' & tr & Hrun).
  { intros name c Hin. apply elem_of_map_to_list in Hin. by eapply Hall. }
  exists acc', tr. split; [done|].
  destruct (closeEach_spec _ _ _ _ (NoDup_fst_map_to_list mcpClients) Hrun)
    as [Hout Hin].
  assert (Hentry : forall name c', acc' !! name = Some c' ->
            exists c a tr0, mcpClients !! name = Some c /\ Close c = Returns a c' tr0).
  { intros name c' Hc'.
    destruct (mcpClients !! name) as [c|] eqn:Hc.
    - destruct (Hin name c) as (a & c1 & tr0 & Hclose & Hc1).
      { by apply elem_of_map_to_list. }
      exists c, a, tr0. split; [done|]. congruence.
    - rewrite Hout in Hc'; [congruence|].
      intros Hn. apply list_elem_of_fmap in Hn as ([n c] & -> & Hn).
      apply elem_of_map_to_list in Hn. simpl in Hc. congruence. }
  split.
  - apply set_eq. intros name. rewrite !elem_of_dom. split.
    + intros [c' Hc']. destruct (Hentry name c' Hc') as (c & _ & _ & Hc & _). by eexists.
    + intros [c Hc]. destruct (Hin name c) as (a & c1 & tr0 & _ & Hc1).
      { by apply elem_of_map_to_list. }
      by eexists.
  - intros name c' Hc'. destruct (Hentry name c' Hc') as (c & a & tr0 & Hc & Hclose).
    split; [|by eexists _, _, _].
    by apply Close_keeps in Hclose as (? & _).
Qed.

Section HostFacts.
Context `{Json}.

Lemma ListTools_trace c r c' tr :
  ListTools c = Returns r c' tr -> tr = [] /\ sameTransport c c'.
Proof.
  unfold ListTools, mbind, M_bind, mret, M_ret, getNextID.
  destruct (sendRequest _ _) as [sent c1 tr1| |tr1] eqn:Hsend; [|done|done].
  apply sendRequest_transport in Hsend as [-> Hsame]. cbn in Hsame.
  intros Hcall. repeat case_match; simplify_eq; cbn; done.
Qed.

(** X24.  However [connectToMCPServer] returns, either it reports no
    error, the table has gained exactly the entry for the new client and
    that client is connected; or it reports an error, the table is as it
    was and the client it made has no command attached: a failed
    attempt leaves no half-open connection behind. *)
Theorem connectToMCPServer_outcome mcpClients serverName cmd env err mcpClients' c tr :
  connectToMCPServer mcpClients serverName cmd env =
    Returns (err, mcpClients') c tr ->
  (err = None /\ mcpClients' = <[serverName := c]> mcpClients /\ connected c) \/
  (err <> None /\ mcpClients' = mcpClients /\ serverCmd c = None).
Proof.
  unfold connectToMCPServer, mbind, M_bind, mret, M_ret.
  destruct (Connect env (NewClient cmd)) as [[e|] c1 tr1| |tr1] eqn:Hconnect;
    [| |done|done].
  - intros [= <- <- <- <-]. right.
    apply Connect_failure_same in Hconnect as ->. done.
  - apply Connect_connected in Hconnect as Hc1.
    destruct (Initialize c1) as [[e|r] c2 tr2| |tr2] eqn:Hinit; [| |done|done].
    + destruct (Close c2) as [a c3 tr3| |tr3] eqn:Hclose; [|done|done].
      intros [= <- <- <- <-]. right.
      apply Close_keeps in Hclose as (? & _). done.
    + intros [= <- <- <- <-]. left. split_and!; [done|done|].
      apply Initialize_transport in Hinit as (_ & Hc & Hi & Ho & He).
      unfold connected in *. by rewrite Hc, Hi, Ho, He.
Qed.

Lemma probeEach_spec entries : forall mcpClients mcpClients' tr,
  NoDup entries.*1 ->
  probeEach entries mcpClients = HostReturns mcpClients' tr ->
  (forall name, name ∉ entries.*1 -> mcpClients' !! name = mcpClients !! name) /\
  (forall name c, (name, c) ∈ entries ->
     (exists tools c',
         ListTools c = Returns (inr tools) c' [] /\ mcpClients' !! name = Some c') \/
     (exists e c1 a c2 tr0,
         ListTools c = Returns (inl e) c1 [] /\ Close c1 = Returns a c2 tr0 /\
         mcpClients' !! name = None)).
Proof.
  induction entries as [|[name client] rest IH]; intros acc acc' tr Hnodup; simpl.
  - intros [= <- <-]. split; [done|]. intros name c Hin. by apply elem_of_nil in Hin.
  - apply NoDup_cons in Hnodup as [Hfresh Hnodup].
    destruct (ListTools client) as [[e|tools] c1 tr1| |tr1] eqn:Hlist; [| |done|done].
    + apply ListTools_trace in Hlist as Htr. destruct Htr as [-> _].
      destruct (Close c1) as [a c2 tr0| |tr0] eqn:Hclose; [|done|done].
      intros Hrest. apply andThen_returns in Hrest as (tr2 & Hrest & _).
      destruct (IH _ _ _ Hnodup Hrest) as [Hout Hin]. split.
      * intros n Hn. apply not_elem_of_cons in Hn as [Hne Hn].
        rewrite Hout by done. by rewrite lookup_delete_ne.
      * intros n c Hc. apply elem_of_cons in Hc as [[= -> ->]|Hc]; [|by apply Hin].
        right. exists e, c1, a, c2, tr0. split_and!; [done|done|].
        rewrite Hout by done. apply lookup_delete_eq.
    + apply ListTools_trace in Hlist as Htr. destruct Htr as [-> _].
      intros Hrest. apply andThen_returns in Hrest as (tr2 & Hrest & _).
      destruct (IH _ _ _ Hnodup Hrest) as [Hout Hin]. split.
      * intros n Hn. apply not_elem_of_cons in Hn as [Hne Hn].
        rewrite Hout by done. by rewrite lookup_insert_ne.
      * intros n c Hc. apply elem_of_cons in Hc as [[= -> ->]|Hc]; [|by apply Hin].
        left. exists tools, c1. split; [done|].
        rewrite Hout by done. apply lookup_insert_eq.
Qed.

(** X27.  When [showConnectionStatus] returns, the table holds exactly
    the clients whose [ListTools] succeeded, each in the state that call
    left it in.  Every client whose [ListTools] returned an error, be it
    a transport failure or an error reply of a server that is alive, has
    been closed and deleted from the table.  No name has been added. *)
Theorem showConnectionStatus_prunes mcpClients mcpClients' tr :
  showConnectionStatus mcpClients = HostReturns mcpClients' tr ->
  forall name,
    match mcpClients !! name with
    | None => mcpClients' !! name = None
    | Some c =>
        (exists tools c',
            ListTools c = Returns (inr tools) c' [] /\
            mcpClients' !! name = Some c') \/
        (exists e c1 a c2 tr0,
            ListTools c = Returns (inl e) c1 [] /\ Close c1 = Returns a c2 tr0 /\
            mcpClients' !! name = None)
    end.
Proof.
  unfold showConnectionStatus. intros Hrun name.
  case_decide as Hsize.
  - injection Hrun as <- <-. apply map_size_empty_iff in Hsize. subst.
    by rewrite lookup_empty.
  - destruct (probeEach_spec _ _ _ _ (NoDup_fst_map_to_list mcpClients) Hrun)
      as [Hout Hin].
    destruct (mcpClients !! name) as [c|] eqn:Hc.
    + apply Hin. by apply elem_of_map_to_list.
    + rewrite Hout; [done|].
      intros Hn. apply list_elem_of_fmap in Hn as ([n c] & -> & Hn).
      apply elem_of_map_to_list in Hn. simpl in Hc. congruence.
Qed.

End HostFacts.

(** * The further properties of the client and the host, on concrete inputs *)

Lemma sendRequest_failures_witness :
  sendRequest (request (VNum 1) "tools/list" PNil) (connectedTo shortLived []) =
  Returns (inl "failed to decode response: EOF")
    (set_encoder
       (Some (mkEncoder [request (VNum 1) "tools/list" PNil] 1%nat okWriter))
       (connectedTo shortLived [])) [].
Proof.
  apply (proj1 (proj2 (sendRequest_failures (connectedTo shortLived [])
                         (NewEncoder okWriter)
                         (request (VNum 1) "tools/list" PNil) eq_refl)));
    reflexivity.
Defined.

Lemma calls_before_connect_witness :
  ListTools (NewClient ["./bin/stock-analyzer"]) =
  Returns (inl "client not connected")
    (set_nextID 2 (NewClient ["./bin/stock-analyzer"])) [].
Proof.
  apply (calls_before_connect (NewClient ["./bin/stock-analyzer"])). reflexivity.
Defined.

Lemma calls_consume_one_id_witness :
  nextID
    (afterReply (idSpent (connectedTo stubborn [Decoded refusal]))
       (NewEncoder okWriter) (request (VNum 1) "tools/list" PNil) []) = 2 /\
  sameTransport (connectedTo stubborn [Decoded refusal])
    (afterReply (idSpent (connectedTo stubborn [Decoded refusal]))
       (NewEncoder okWriter) (request (VNum 1) "tools/list" PNil) []) /\
  @nil Event = [].
Proof.
  apply (proj1 (proj2 (calls_consume_one_id (connectedTo stubborn [Decoded refusal])))
           (inl "list tools error: Invalid params")).
  reflexivity.
Defined.

Lemma Initialize_success_witness :
  exists c',
    Initialize (connectedTo shortLived [Decoded handshakeReply]) =
      Returns (inr {| ires_ProtocolVersion := "2024-11-05";
                      ires_Capabilities := s_capabilities exampleServer;
                      ires_ServerInfo :=
                        {| si_Name := "Stock Analyzer MCP Server";
                           si_Version := "2.0.0" |} |}) c' [] /\
    encoder c' =
      Some (mkEncoder ([] ++ [initializeRequest 1; initializedNotification])
              2%nat okWriter) /\
    decoder c' = Some [] /\
    nextID c' = 2.
Proof.
  apply (Initialize_success (connectedTo shortLived [Decoded handshakeReply])
           (NewEncoder okWriter) handshakeReply []); reflexivity.
Defined.

Lemma Initialize_notification_failure_witness :
  exists c',
    Initialize (connectedOver 1 shortLived [Decoded handshakeReply]) =
      Returns
        (inl "failed to send initialized notification: write |1: broken pipe")
        c' [] /\
    encoder c' =
      Some (mkEncoder ([] ++ [initializeRequest 1]) 2%nat (failingAt 1)) /\
    decoder c' = Some [].
Proof.
  apply (Initialize_notification_failure
           (connectedOver 1 shortLived [Decoded handshakeReply])
           (NewEncoder (failingAt 1)) handshakeReply []
           {| ires_ProtocolVersion := "2024-11-05";
              ires_Capabilities := s_capabilities exampleServer;
              ires_ServerInfo :=
                {| si_Name := "Stock Analyzer MCP Server";
                   si_Version := "2.0.0" |} |}); reflexivity.
Defined.

Lemma CallTool_result_witness :
  IsError failedLookup = true /\
  exists c',
    CallTool "get_stock_price" (<["symbol" := VStr "ZZZZ"]> ∅)
      (connectedTo shortLived [Decoded failedLookupReply]) =
      Returns (inr failedLookup) c' [] /\
    encoder c' =
      Some (mkEncoder
              ([] ++
                 [{| req_JSONRPC := "2.0"; req_ID := VNum 1;
                     req_Method := "tools/call";
                     req_Params := PCallTool
                       {| ctr_Name := "get_stock_price";
                          ctr_Arguments := <["symbol" := VStr "ZZZZ"]> ∅ |} |}])
              1%nat okWriter) /\
    decoder c' = Some [].
Proof.
  split; [reflexivity|].
  apply (CallTool_result (connectedTo shortLived [Decoded failedLookupReply])
           (NewEncoder okWriter) "get_stock_price" (<["symbol" := VStr "ZZZZ"]> ∅)
           failedLookupReply [] failedLookup); reflexivity.
Defined.

Lemma remote_error_surfaced_witness :
  exists c',
    ListTools (connectedTo stubborn [Decoded refusal; Decoded emptyListing]) =
      Returns (inl "list tools error: Invalid params") c' [] /\
    sameTransport (connectedTo stubborn [Decoded refusal; Decoded emptyListing]) c' /\
    decoder c' = Some [Decoded emptyListing].
Proof.
  apply (remote_error_surfaced
           (connectedTo stubborn [Decoded refusal; Decoded emptyListing])
           (NewEncoder okWriter) refusal [Decoded emptyListing]
           {| Code := -32602; Message := "Invalid params";
              Data := VStr "unsupported protocol version" |}); reflexivity.
Defined.

Lemma Connect_failure_cleanup_witness :
  Returns (Some "failed to create stderr pipe: pipe: too many open files")
    (NewClient ["./bin/stock-analyzer"]) [EvClose Stdin; EvClose Stdout] =
  Connect outOfDescriptors (NewClient ["./bin/stock-analyzer"]) /\
  forall pipe, pipe ∈ [Stdin; Stdout] ->
               EvClose pipe ∈ [EvClose Stdin; EvClose Stdout].
Proof.
  split; [reflexivity|].
  apply (Connect_failure_cleanup outOfDescriptors (NewClient ["./bin/stock-analyzer"])
           "failed to create stderr pipe: pipe: too many open files"
           (NewClient ["./bin/stock-analyzer"]) [EvClose Stdin; EvClose Stdout]);
    reflexivity.
Defined.

Lemma Connect_empty_command_witness :
  Connect (spawning shortLived []) (NewClient []) = Panics.
Proof.
  apply (Connect_empty_command (spawning shortLived []) (NewClient []));
    reflexivity.
Defined.

Lemma Connect_twice_witness :
  Connect outOfDescriptors (connectedTo stubborn []) =
  Returns (Some "client already connected") (connectedTo stubborn []) [].
Proof.
  apply (Connect_twice (spawning stubborn []) outOfDescriptors
           (NewClient ["./bin/stock-analyzer"]) (connectedTo stubborn [])
           [EvStart; EvSleep connectGrace]).
  reflexivity.
Defined.

Lemma Close_idempotent_witness :
  Close {| serverCommand := ["./bin/stock-analyzer"];
           serverCmd := None;
           stdin := Some PipeClosed; stdout := Some PipeClosed;
           stderr := Some PipeClosed;
           encoder := Some (NewEncoder okWriter);
           decoder := Some [];
           nextID := 1 |} =
  Returns None
    {| serverCommand := ["./bin/stock-analyzer"];
       serverCmd := None;
       stdin := Some PipeClosed; stdout := Some PipeClosed;
       stderr := Some PipeClosed;
       encoder := Some (NewEncoder okWriter);
       decoder := Some [];
       nextID := 1 |} [].
Proof.
  apply (Close_idempotent (connectedTo shortLived []) None _
           [EvClose Stdin; EvClose Stdout; EvClose Stderr; EvWait; EvDone 0]).
  reflexivity.
Defined.

Lemma reconnect_keeps_counter_witness :
  exists c2,
    Connect (spawning shortLived [])
      (idSpent (idSpent
         {| serverCommand := ["./bin/stock-analyzer"];
            serverCmd := None;
            stdin := Some PipeClosed; stdout := Some PipeClosed;
            stderr := Some PipeClosed;
            encoder := Some (NewEncoder okWriter);
            decoder := Some [];
            nextID := 1 |})) =
      Returns None c2 [EvStart; EvSleep connectGrace] /\
    connected c2 /\
    nextID c2 = 3 /\
    encoder c2 = Some (NewEncoder okWriter) /\
    decoder c2 = Some [].
Proof.
  apply (reconnect_keeps_counter (spawning shortLived [])
           (idSpent (idSpent (connectedTo shortLived []))) None _
           [EvClose Stdin; EvClose Stdout; EvClose Stderr; EvWait; EvDone 0]
           "./bin/stock-analyzer" [] shortLived); reflexivity.
Defined.

Lemma send_after_Close_witness :
  exists c',
    Close (connectedOver 0 shortLived []) =
      Returns None c'
        [EvClose Stdin; EvClose Stdout; EvClose Stderr; EvWait; EvDone 0] /\
    sendRequest (request (VNum 1) "tools/list" PNil) c' =
      Returns (inl "failed to send request: write |1: broken pipe")
        (set_encoder (Some (mkEncoder [] 1%nat (failingAt 0))) c') [].
Proof.
  eexists. split; [reflexivity|].
  apply (send_after_Close (connectedOver 0 shortLived []) None _
           [EvClose Stdin; EvClose Stdout; EvClose Stderr; EvWait; EvDone 0]
           (NewEncoder (failingAt 0)) (request (VNum 1) "tools/list" PNil)
           "write |1: broken pipe"); reflexivity.
Defined.

Lemma connectToMCPServer_outcome_witness :
  exists c tr,
    connectToMCPServer ∅ "stock-analyzer" ["./bin/stock-analyzer"]
      (spawning shortLived [Decoded handshakeReply]) =
      Returns (None, <["stock-analyzer" := c]> ∅) c tr /\
    connected c.
Proof.
  eexists _, _. split; [reflexivity|].
  edestruct (connectToMCPServer_outcome ∅ "stock-analyzer" ["./bin/stock-analyzer"]
               (spawning shortLived [Decoded handshakeReply]))
    as [(_ & _ & Hconnected)|(Herr & _)]; [reflexivity|exact Hconnected|].
  by destruct Herr.
Defined.

Lemma disconnect_removes_witness :
  exists mcpClients' tr,
    disconnectFromMCPServer exampleTable "main.go" = HostReturns mcpClients' tr /\
    mcpClients' !! "main.go" = None /\
    forall other, other <> "main.go" -> mcpClients' !! other = exampleTable !! other.
Proof.
  eexists _, _. split; [reflexivity|].
  edestruct (disconnect_removes exampleTable "main.go") as (Hgone & Hrest & _);
    [reflexivity|].
  split; [exact Hgone|exact Hrest].
Defined.

Lemma cleanup_closes_all_witness :
  exists mcpClients' tr,
    cleanup exampleTable = HostReturns mcpClients' tr /\
    dom mcpClients' = dom exampleTable /\
    forall name c',
      mcpClients' !! name = Some c' ->
      serverCmd c' = None /\
      exists c a tr0, exampleTable !! name = Some c /\ Close c = Returns a c' tr0.
Proof.
  apply (cleanup_closes_all exampleTable).
  intros name c Hc. unfold exampleTable in Hc.
  apply lookup_insert_Some in Hc as [[_ <-]|[_ Hc]]; [by eexists _, _, _|].
  apply lookup_insert_Some in Hc as [[_ <-]|[_ Hc]]; [by eexists _, _, _|].
  apply lookup_insert_Some in Hc as [[_ <-]|[_ Hc]]; [by eexists _, _, _|].
  by rewrite lookup_empty in Hc.
Defined.

Lemma showConnectionStatus_prunes_witness :
  exists mcpClients' tr,
    showConnectionStatus exampleTable = HostReturns mcpClients' tr /\
    forall name,
      match exampleTable !! name with
      | None => mcpClients' !! name = None
      | Some c =>
          (exists tools c',
              ListTools c = Returns (inr tools) c' [] /\
              mcpClients' !! name = Some c') \/
          (exists e c1 a c2 tr0,
              ListTools c = Returns (inl e) c1 [] /\ Close c1 = Returns a c2 tr0 /\
              mcpClients' !! name = None)
      end.
Proof.
  eexists _, _. split; [vm_compute; reflexivity|].
  eapply (showConnectionStatus_prunes exampleTable). vm_compute. reflexivity.
Defined.

(** The run behind that witness: of the three clients only the one whose
    server listed its tools is left; the one whose server refused with
    an error reply was closed by force, its child killed. *)
Example status_of_exampleTable :
  exists mcpClients' tr,
    showConnectionStatus exampleTable = HostReturns mcpClients' tr /\
    is_Some (mcpClients' !! "stock-analyzer") /\
    mcpClients' !! "main.go" = None /\
    mcpClients' !! "gone" = None /\
    EvKill ∈ tr.
Proof.
  eexists _, _. split; [vm_compute; reflexivity|].
  split_and!; [vm_compute; by eexists|vm_compute; reflexivity|vm_compute; reflexivity|].
  repeat (apply list_elem_of_here || apply list_elem_of_further).
Qed.


(** * Ids through the decoder *)




Section IdEcho.
Context `{Json}.


(** Whatever the writer does, a run leaves what was written before it in
    place. *)
Lemma HandleRequest_extends s input : forall encoder,
  exists more, written (HandleRequest s input encoder).1 = written encoder ++ more.
Proof.
  induction input as [|[request|msg] rest IH]; intros encoder; simpl.
  - exists []. by rewrite app_nil_r.
  - destruct (route_cases s encoder request) as [Hsilent|(response & Hroute & _)].
    + rewrite Hsilent. apply IH.
    + rewrite Hroute. destruct (Encode encoder response) as [e1 [msg|]] eqn:Henc.
      * apply Encode_written in Henc as [[? _]|[_ Hw]]; [done|].
        exists []. simpl. by rewrite app_nil_r.
      * apply Encode_written in Henc as [[_ Hw]|[? _]]; [|done].
        destruct (IH e1) as [more Hmore]. exists (response :: more).
        rewrite Hmore, Hw. by rewrite <- app_assoc.
  - rewrite sendError_Encode.
    destruct (Encode encoder _) as [e1 err] eqn:Henc.
    apply Encode_written in Henc as [[_ Hw]|[_ Hw]]; simpl.
    + by eexists [_].
    + exists []. by rewrite app_nil_r.
Qed.

(** A request that the switch answers by one successful write. *)
Lemma answers_and_goes_on s encoder request rest response :
  route s encoder request = Encode encoder response ->
  faults encoder (calls encoder) = None ->
  answersAndGoesOn s encoder request rest response.
Proof.
  intros Hroute Hok. rewrite (Encode_ok _ _ Hok) in Hroute.
  unfold answersAndGoesOn. cbv zeta. split_and!.
  - done.
  - simpl. by rewrite Hroute.
  - simpl. rewrite Hroute.
    destruct (HandleRequest_extends s rest
                (mkEncoder (written encoder ++ [response]) (S (calls encoder))
                   (faults encoder))) as [more Hmore].
    exists more. rewrite Hmore. simpl. by rewrite <- app_assoc.
  - intros Hrel. simpl. rewrite Hroute.
    destruct (HandleRequest_output s rest
                (mkEncoder (written encoder ++ [response]) (S (calls encoder))
                   (faults encoder))) as (e2 & responses & Hrun & Hout & Hall).
    { intros n. apply Hrel. }
    exists e2, responses. split_and!; [done| |done].
    rewrite Hout. simpl. by rewrite <- app_assoc.
Qed.

(** C2 (a failing tool does not stop the loop).  When the handler named
    by a tools/call request exists and returns an error, and the write
    succeeds, the envelope written carries the request's id and the
    error -32603 with the handler's message as data; it stands in what
    the run has written, right after what was written before; and the
    loop goes on with the rest of the stream, which over a writer that
    does not fail it answers to the end, returning nil. *)
Theorem tool_failure_wrapped s encoder request callReq handler result msg rest :
  req_Method request = "tools/call" ->
  callToolParams request = inr callReq ->
  s_tools s !! ctr_Name callReq = Some handler ->
  handler (ctr_Arguments callReq) = (result, Some msg) ->
  faults encoder (calls encoder) = None ->
  answersAndGoesOn s encoder request rest
    {| resp_JSONRPC := "2.0";
       resp_ID := req_ID request;
       resp_Result := RNil;
       resp_Error := Some {| Code := -32603;
                             Message := "Tool execution error";
                             Data := VStr msg |} |}.
Proof.
  intros Hm Hparams Htool Hfail Hok. apply answers_and_goes_on; [|done].
  rewrite route_call by done. unfold handleCallTool.
  by rewrite Hparams, Htool, Hfail.
Qed.

(** X1.  A request whose method is none of initialize, tools/list,
    tools/call and notifications/initialized is answered with the error
    -32601 "Method not found", the method's name as data and the
    request's id; when that write succeeds the envelope stands in what
    the run has written and the loop goes on with what follows. *)
Theorem unknown_method_rejected s encoder request rest :
  req_Method request <> "initialize" ->
  req_Method request <> "tools/list" ->
  req_Method request <> "tools/call" ->
  req_Method request <> "notifications/initialized" ->
  faults encoder (calls encoder) = None ->
  answersAndGoesOn s encoder request rest
    {| resp_JSONRPC := "2.0"; resp_ID := req_ID request; resp_Result := RNil;
       resp_Error := Some {| Code := -32601; Message := "Method not found";
                             Data := VStr (req_Method request) |} |}.
Proof.
  intros H1 H2 H3 H4 Hok. apply answers_and_goes_on; [|done].
  unfold route. repeat case_decide; done.
Qed.

(** X2.  A tools/call request naming a tool that is not in the registry
    is answered with the error -32601 "Tool not found" and the name as
    data; a request without params names the empty string.  When the
    write succeeds the envelope stands in what the run has written and
    the loop goes on with what follows. *)
Theorem unknown_tool_rejected s encoder request callReq rest :
  req_Method request = "tools/call" ->
  callToolParams request = inr callReq ->
  s_tools s !! ctr_Name callReq = None ->
  faults encoder (calls encoder) = None ->
  (req_Params request = PNil -> ctr_Name callReq = "") /\
  answersAndGoesOn s encoder request rest
    {| resp_JSONRPC := "2.0"; resp_ID := req_ID request; resp_Result := RNil;
       resp_Error := Some {| Code := -32601; Message := "Tool not found";
                             Data := VStr (ctr_Name callReq) |} |}.
Proof.
  intros Hm Hparams Htool Hok. split.
  - intros Hnil. unfold callToolParams in Hparams. rewrite Hnil in Hparams.
    by injection Hparams as <-.
  - apply answers_and_goes_on; [|done].
    rewrite route_call by done. unfold handleCallTool, ToolHandler, error in *.
    by rewrite Hparams, Htool.
Qed.

(** X3.  An initialize or tools/call request whose params do not
    unmarshal into the payload struct is answered with the error -32602
    "Invalid params" and the unmarshalling error as data; no handler is
    looked up.  When the write succeeds the envelope stands in what the
    run has written and the loop goes on with what follows. *)
Theorem invalid_params_rejected s encoder request msg rest :
  (req_Method request = "initialize" /\ initializeParams request = inl msg) \/
  (req_Method request = "tools/call" /\ callToolParams request = inl msg) ->
  faults encoder (calls encoder) = None ->
  answersAndGoesOn s encoder request rest
    {| resp_JSONRPC := "2.0"; resp_ID := req_ID request; resp_Result := RNil;
       resp_Error := Some {| Code := -32602; Message := "Invalid params";
                             Data := VStr msg |} |}.
Proof.
  intros Hcase Hok. apply answers_and_goes_on; [|done].
  destruct Hcase as [[Hm Hparams]|[Hm Hparams]].
  - rewrite route_initialize by done. unfold handleInitialize. by rewrite Hparams.
  - rewrite route_call by done. unfold handleCallTool. by rewrite Hparams.
Qed.

End IdEcho.

(** * The close sequence, to the moment it ends *)

(** C8, as the code has it.  On a connected client (command attached
    and started, pipes set, as [Connect] leaves it) [Close] closes
    stdin, then stdout, then stderr, and begins the wait.  If the child
    is gone before the 5000 ms timer, [Close] returns nil at that moment
    without a kill.  Otherwise the timer fires at 5000 ms, the kill is
    sent, and [Close] waits without limit: it returns nil at the moment
    the child is gone, reclaimed after the kill or exited by itself, and
    not before; and when the child neither exits nor is ever reclaimed
    it does not return.  Where it returns, the command is detached and
    the three pipes are closed; encoder, decoder and counter stay. *)
Theorem Close_sequence c cmd child :
  serverCmd c = Some cmd ->
  connected c ->
  cmd_Process cmd = Some child ->
  let closed :=
    {| serverCommand := serverCommand c;
       serverCmd := None;
       stdin := Some PipeClosed;
       stdout := Some PipeClosed;
       stderr := Some PipeClosed;
       encoder := encoder c;
       decoder := decoder c;
       nextID := nextID c |} in
  let begun := [EvClose Stdin; EvClose Stdout; EvClose Stderr; EvWait] in
  let killed := begun ++ [EvTimeout 5000; EvKill] in
  (forall t,
      eof_exit child = Some t -> (t < 5000)%N ->
      Close c = Returns None closed (begun ++ [EvDone t])) /\
  (forall r,
      eof_exit child = None -> kill_exit child = Some r ->
      Close c = Returns None closed (killed ++ [EvDone (5000 + r)])) /\
  (forall t r,
      eof_exit child = Some t -> (5000 <= t)%N -> kill_exit child = Some r ->
      Close c = Returns None closed (killed ++ [EvDone (N.min t (5000 + r))])) /\
  (forall t,
      eof_exit child = Some t -> (5000 <= t)%N -> kill_exit child = None ->
      Close c = Returns None closed (killed ++ [EvDone t])) /\
  (eof_exit child = None -> kill_exit child = None -> Close c = Blocks killed).
Proof.
  intros Hcmd (_ & [i Hi] & [o Ho] & [e He]) Hchild closed begun killed.
  unfold Close. rewrite Hcmd, Hi, Ho, He.
  unfold waitReturns, doneAfterKill. rewrite Hchild.
  split_and!.
  - intros t Ht Hlt. rewrite Ht.
    apply N.ltb_lt in Hlt. unfold closeTimeout. by rewrite Hlt.
  - intros r Ht Hr. by rewrite Ht, Hr.
  - intros t r Ht Hge Hr. rewrite Ht, Hr.
    apply N.ltb_ge in Hge. unfold closeTimeout. by rewrite Hge.
  - intros t Ht Hge Hr. rewrite Ht, Hr.
    apply N.ltb_ge in Hge. unfold closeTimeout. by rewrite Hge.
  - intros Ht Hr. by rewrite Ht, Hr.
Qed.

Lemma Close_sequence_witness :
  Close (connectedTo stubborn []) =
  Returns None
    {| serverCommand := ["./bin/stock-analyzer"];
       serverCmd := None;
       stdin := Some PipeClosed;
       stdout := Some PipeClosed;
       stderr := Some PipeClosed;
       encoder := Some (NewEncoder okWriter);
       decoder := Some [];
       nextID := 1 |}
    ([EvClose Stdin; EvClose Stdout; EvClose Stderr; EvWait] ++
     [EvTimeout 5000; EvKill] ++ [EvDone (5000 + 20)]).
Proof.
  apply (proj1 (proj2
           (Close_sequence (connectedTo stubborn [])
              {| Path := "./bin/stock-analyzer"; Args := ["./bin/stock-analyzer"];
                 cmd_Process := Some stubborn; cmd_ProcessState := None |}
              stubborn eq_refl
              (conj (ex_intro _ _ eq_refl)
                 (conj (ex_intro _ _ eq_refl)
                    (conj (ex_intro _ _ eq_refl) (ex_intro _ _ eq_refl))))
              eq_refl)));
    reflexivity.
Defined.

(** C8 as stated fails: on a child that neither exits when its pipes are
    closed nor is reclaimed after the kill, [Close] closes the pipes,
    waits out the timer, sends the kill, and then waits for ever. *)
Lemma Close_blocks_on_unkillable :
  Close (connectedTo unkillable []) =
  Blocks [EvClose Stdin; EvClose Stdout; EvClose Stderr; EvWait;
          EvTimeout 5000; EvKill].
Proof. reflexivity. Qed.

(** * The revised statements on concrete inputs *)



Lemma tool_failure_wrapped_witness :
  answersAndGoesOn exampleServer (NewEncoder okWriter) badCall [Decoded goodCall]
    (errorResponse (VNum 7) (-32603) "Tool execution error"
       "symbol parameter is required").
Proof.
  apply (tool_failure_wrapped exampleServer (NewEncoder okWriter) badCall
           {| ctr_Name := "get_stock_price"; ctr_Arguments := ∅ |}
           priceHandler None "symbol parameter is required" [Decoded goodCall]).
  - reflexivity.
  - reflexivity.
  - vm_compute. reflexivity.
  - reflexivity.
  - reflexivity.
Defined.

(** The run behind that witness: the failed call is answered with the
    error, and the call that follows it with its result. *)
Example run_after_tool_failure :
  HandleRequest exampleServer [Decoded badCall; Decoded goodCall]
    (NewEncoder okWriter) =
  (mkEncoder
     [errorResponse (VNum 7) (-32603) "Tool execution error"
        "symbol parameter is required";
      {| resp_JSONRPC := "2.0"; resp_ID := VStr "a-1";
         resp_Result := RCallTool
           (Some {| Content_ := [{| Type_ := "text"; Text := "AAPL" |}];
                    IsError := false |});
         resp_Error := None |}]
     2%nat okWriter,
   None).
Proof. vm_compute. reflexivity. Qed.

Lemma unknown_method_rejected_witness :
  answersAndGoesOn exampleServer (NewEncoder okWriter)
    (request (VNum 3) "resources/list" PNil) [Decoded goodCall]
    (errorResponse (VNum 3) (-32601) "Method not found" "resources/list").
Proof.
  apply (unknown_method_rejected exampleServer (NewEncoder okWriter)
           (request (VNum 3) "resources/list" PNil) [Decoded goodCall]);
    [discriminate|discriminate|discriminate|discriminate|reflexivity].
Defined.

Lemma unknown_tool_rejected_witness :
  answersAndGoesOn exampleServer (NewEncoder okWriter) strangerCall
    [Decoded goodCall]
    (errorResponse (VNum 9) (-32601) "Tool not found" "analyze_portfolio").
Proof.
  apply (unknown_tool_rejected exampleServer (NewEncoder okWriter) strangerCall
           {| ctr_Name := "analyze_portfolio"; ctr_Arguments := ∅ |}
           [Decoded goodCall]).
  - reflexivity.
  - reflexivity.
  - vm_compute. reflexivity.
  - reflexivity.
Defined.

Lemma invalid_params_rejected_witness :
  answersAndGoesOn exampleServer (NewEncoder okWriter) malformedCall
    [Decoded goodCall]
    (errorResponse (VNum 8) (-32602) "Invalid params"
       "json: cannot unmarshal number into Go value of type models.CallToolRequest").
Proof.
  apply (invalid_params_rejected exampleServer (NewEncoder okWriter) malformedCall
           "json: cannot unmarshal number into Go value of type models.CallToolRequest"
           [Decoded goodCall]).
  - right. split; reflexivity.
  - reflexivity.
Defined.

(** The runs behind the last three witnesses: each time the error
    envelope is followed by the result of the call that comes next. *)
Example runs_after_rejections :
  Forall
    (fun '(rejected, response) =>
       written (HandleRequest exampleServer [Decoded rejected; Decoded goodCall]
                  (NewEncoder okWriter)).1 =
       [response;
        {| resp_JSONRPC := "2.0"; resp_ID := VStr "a-1";
           resp_Result := RCallTool
             (Some {| Content_ := [{| Type_ := "text"; Text := "AAPL" |}];
                      IsError := false |});
           resp_Error := None |}])
    [(request (VNum 3) "resources/list" PNil,
      errorResponse (VNum 3) (-32601) "Method not found" "resources/list");
     (strangerCall,
      errorResponse (VNum 9) (-32601) "Tool not found" "analyze_portfolio");
     (malformedCall,
      errorResponse (VNum 8) (-32602) "Invalid params"
        "json: cannot unmarshal number into Go value of type models.CallToolRequest")].
Proof. repeat constructor. Qed.

(** The ids of the run behind the witness of the id echo: the first two
    as written, the third rounded by the decoder before the loop saw
    it. *)
Example ids_of_deliveredRequests :
  resp_ID <$>
    written (HandleRequest exampleServer (Decoded <$> deliveredRequests)
               (NewEncoder okWriter)).1 =
  [VNum 1; VStr "a-1"; VNum 9007199254740992].
Proof. vm_compute. reflexivity. Qed.
